(** * rag-workshop: the answer service, its RAG pipeline and the gateway

    A shallow embedding of
    - [backend/app/rag_pipeline.py] (module [Pipeline]),
    - [backend/app/main.py]         (module [Backend]),
    - [frontend/app.py]             (module [Gateway]),
    followed by the properties of the specification that were checked
    against them.

    Conventions.
    - A Python [str] is written as its UTF-8 encoding, one [ascii] per
      byte, which is also how the literals of this file are read. The
      operations that count or classify characters ([len], the slice
      [[:n]], [strip]) work on whole characters: a byte [10xxxxxx]
      continues the character begun before it, and the white space
      characters are recognised by their encodings. Substring search
      works on the bytes, which finds the same occurrences. The bytes of
      an uploaded file are a [string] too.
    - A [dict] with string keys is a [gmap string _].
    - A raised exception is the [Raise] result; the services that are
      called over the network (PDF loader, text splitter, embedding and
      completion API, Pinecone) are the fields of [Externals]. *)

From Stdlib Require Import ZArith Ascii String.
From stdpp Require Import gmap strings list fin_maps pretty.

Local Open Scope Z_scope.

(** ** Python strings *)

Module Py.

  (** The first [n] bytes of [s]. *)
Fixpoint prefix (n : nat) (s : string) : string :=
  match n, s with
  | O, _ => EmptyString
  | S _, EmptyString => EmptyString
  | S n', String c s' => String c (prefix n' s')
  end.

  (** A byte [10xxxxxx] continues the character begun before it. *)
Definition is_continuation (c : ascii) : bool :=
  let n := nat_of_ascii c in ((128 <=? n) && (n <=? 191))%nat.

  (** [len(s)]: the number of characters of [s]. *)
Fixpoint len (s : string) : nat :=
  match s with
  | EmptyString => O
  | String c s' => if is_continuation c then len s' else S (len s')
  end.

  (** [s[:n]]: the first [n] characters of [s], each with all its
      bytes. *)
Fixpoint slice_to (n : nat) (s : string) : string :=
  match s with
  | EmptyString => EmptyString
  | String c s' =>
      if is_continuation c then String c (slice_to n s')
      else match n with
           | O => EmptyString
           | S n' => String c (slice_to n' s')
           end
  end.

  (** [s.startswith(p)] *)
Fixpoint startswith (p s : string) : bool :=
  match p, s with
  | EmptyString, _ => true
  | String _ _, EmptyString => false
  | String a p', String b s' => if decide (a = b) then startswith p' s' else false
  end.

  (** [needle in hay] *)
Fixpoint contains (needle hay : string) : bool :=
  startswith needle hay
  || match hay with
     | EmptyString => false
     | String _ hay' => contains needle hay'
     end.

Definition lower_char (c : ascii) : ascii :=
  let n := nat_of_ascii c in
  if ((65 <=? n) && (n <=? 90))%nat then ascii_of_nat (n + 32) else c.

  (** [s.lower()]: the letters A-Z are folded; the handlers search the
      result only for words written in a-z, which the lower case of no
      other character completes. *)
Fixpoint lower (s : string) : string :=
  match s with
  | EmptyString => EmptyString
  | String c s' => String (lower_char c) (lower s')
  end.

  (** [c.isspace()] for the characters of one byte: tab, line feed,
      vertical tab, form feed, carriage return (9-13), the four separators
      0x1c-0x1f and the space. *)
Definition isspace1 (a : ascii) : bool :=
  let n := nat_of_ascii a in
  ((9 <=? n) && (n <=? 13) || (28 <=? n) && (n <=? 32))%nat.

  (** [c.isspace()] for the characters of two bytes: U+0085 (next line)
      and U+00A0 (no-break space). *)
Definition isspace2 (a b : ascii) : bool :=
  let m := nat_of_ascii a in
  let n := nat_of_ascii b in
  ((m =? 194) && ((n =? 133) || (n =? 160)))%nat.

  (** [c.isspace()] for the characters of three bytes: U+1680, U+2000 to
      U+200A, U+2028, U+2029, U+202F, U+205F and U+3000. *)
Definition isspace3 (a b c : ascii) : bool :=
  let l := nat_of_ascii a in
  let m := nat_of_ascii b in
  let n := nat_of_ascii c in
  ((l =? 225) && (m =? 154) && (n =? 128)
   || (l =? 226) && (m =? 128)
      && ((128 <=? n) && (n <=? 138) || (n =? 168) || (n =? 169) || (n =? 175))
   || (l =? 226) && (m =? 129) && (n =? 159)
   || (l =? 227) && (m =? 128) && (n =? 128))%nat.

  (** [s.lstrip()]: the white space characters at the front are dropped,
      whatever the number of their bytes. *)
Fixpoint lstrip (s : string) : string :=
  match s with
  | EmptyString => EmptyString
  | String a s1 =>
      if isspace1 a then lstrip s1
      else
        match s1 with
        | EmptyString => s
        | String b s2 =>
            if isspace2 a b then lstrip s2
            else
              match s2 with
              | EmptyString => s
              | String c s3 => if isspace3 a b c then lstrip s3 else s
              end
        end
  end.

  (** [s.rstrip()]: what is left from a point on is dropped once it is
      white space only. *)
Fixpoint rstrip (s : string) : string :=
  match s with
  | EmptyString => EmptyString
  | String a s' =>
      match lstrip s with
      | EmptyString => EmptyString
      | String _ _ => String a (rstrip s')
      end
  end.

Fixpoint rev_str (acc s : string) : string :=
  match s with
  | EmptyString => acc
  | String c s' => rev_str (String c acc) s'
  end.

  (** [s.strip()] *)
Definition strip (s : string) : string := rstrip (lstrip s).

  (** truth value of a [str]: the empty string is falsy *)
Definition truthy (s : string) : bool :=
  match s with EmptyString => false | String _ _ => true end.

  (** [sep.join(l)] *)
Fixpoint join (sep : string) (l : list string) : string :=
  match l with
  | [] => EmptyString
  | [x] => x
  | x :: l' => x +:+ sep +:+ join sep l'
  end.

Definition nl : string := String (ascii_of_nat 10) EmptyString.

  (** Exceptions. [HTTPException] is FastAPI's; every other exception is
      kept by its message, which is all the handlers look at. *)
Inductive exn :=
  | HTTPException (status_code : Z) (detail : string)
  | Error (msg : string).

  (** [str(e)]; Starlette prints an [HTTPException] as [status: detail]. *)
Definition str (e : exn) : string :=
  match e with
  | HTTPException c d => pretty c +:+ ": " +:+ d
  | Error m => m
  end.

  (** What running a piece of code gives: a value, an exception, or no
      return at all (the polling loop of the index bootstrap). *)
Inductive result (A : Type) :=
  | Ok (a : A)
  | Raise (e : exn)
  | Hang.
Arguments Ok {A} a.
Arguments Raise {A} e.
Arguments Hang {A}.

Definition bind {A B} (r : result A) (k : A -> result B) : result B :=
  match r with
  | Ok a => k a
  | Raise e => Raise e
  | Hang => Hang
  end.

End Py.

#[global] Instance result_bind : MBind Py.result :=
  fun A B k r => Py.bind r k.

(** ** backend/app/rag_pipeline.py *)

Module Pipeline.
Import Py.

  (** A metadata value: PDF loaders store strings and integers. *)
Inductive value :=
  | VStr (s : string)
  | VInt (z : Z).

#[global] Instance value_eq_dec : EqDecision value.
Proof. solve_decision. Defined.

  (** LangChain's [Document]. *)
Record Document := {
  page_content : string;
  metadata : gmap string value;
}.

  (** The Pinecone project as the service sees it: the names of its
      indexes, and the records of the configured index and namespace in
      the order they were upserted. *)
Record Pinecone := {
  indexes : list string;
  vectors : list Document;
}.

  (** How creating the index and polling [describe_index] ends: ready
      after some polls, never ready, [create_index] raising, or a
      [describe_index] raising once the index is created. *)
Inductive bootstrap :=
  | Ready (polls : nat)
  | NeverReady
  | CreateFails (e : exn)
  | DescribeFails (e : exn).

  (** The metadata filter sent with a query. *)
Inductive filter :=
  | FEq (key : string) (v : value).

  (** [search_kwargs] of the retriever. *)
Record Retriever := {
  k : nat;
  search_filter : filter;
}.

  (** Configuration and the collaborators outside the repository. *)
Record Externals := {
  PINE_CONE_AVAILABLE : bool;
  PINECONE_INDEX_NAME : string;
  (** [pc.list_indexes()] failing *)
  list_indexes_error : option exn;
  (** [pc.create_index(...)] and the wait for readiness *)
  create_index : bootstrap;
  (** [PyPDFLoader(file_path).load()], one [Document] per page *)
  load : string -> result (list Document);
  (** the splitter's cut of one text: start offset and piece *)
  split_text : string -> list (Z * string);
  (** [PineconeVectorStore.from_documents] failing after it has written
      the first [n] records *)
  upsert_error : list Document -> option (nat * exn);
  (** opening a store on an index that does not exist *)
  missing_index_error : exn;
  (** embedding the question or querying the index failing *)
  query_error : string -> option exn;
  (** [nearer q a b]: [a] is at least as similar to [q] as [b] is *)
  nearer : string -> Document -> Document -> bool;
  (** the completion model on the system and the human message *)
  llm : string -> string -> result string;
}.

Section WithExternals.
Context (ext : Externals).

  (** [_ensure_pinecone_index] *)
Definition _ensure_pinecone_index (pc : Pinecone) : Pinecone * result unit :=
  if negb (PINE_CONE_AVAILABLE ext) then
    (pc, Raise (Error "Pinecone is not available"))
  else
    match list_indexes_error ext with
    | Some e => (pc, Raise e)
    | None =>
        if bool_decide (PINECONE_INDEX_NAME ext ∈ indexes pc) then (pc, Ok tt)
        else
          let pc' := {| indexes := indexes pc ++ [PINECONE_INDEX_NAME ext];
                        vectors := vectors pc |} in
          match create_index ext with
          | CreateFails e => (pc, Raise e)
          | DescribeFails e => (pc', Raise e)
          | NeverReady => (pc', Hang)
          | Ready _ => (pc', Ok tt)
          end
    end.

  (** [doc_id or str(uuid.uuid4())] *)
Definition document_id_of (doc_id : option string) (uuid4 : string) : string :=
  match doc_id with
  | Some d => if truthy d then d else uuid4
  | None => uuid4
  end.

  (** The body of the loop over [enumerate(pages, start=1)]. *)
Definition tag_page (document_id : string) (i : Z) (page : Document) : Document :=
  let m := <["doc_id" := VStr document_id]> (metadata page) in
  {| page_content := page_content page;
     metadata := <["page_number" := default (VInt i) (m !! "page")]> m |}.

Definition tag_pages (document_id : string) (pages : list Document) : list Document :=
  imap (fun i page => tag_page document_id (Z.of_nat (S i)) page) pages.

  (** [text_splitter.split_documents] with [add_start_index=True]: every
      piece of a page is a [Document] with a copy of the page's metadata
      and its [start_index]. *)
Definition split_page (page : Document) : list Document :=
  map (fun piece : Z * string =>
         {| page_content := piece.2;
            metadata := <["start_index" := VInt piece.1]> (metadata page) |})
      (split_text ext (page_content page)).

Definition split_documents (pages : list Document) : list Document :=
  flat_map split_page pages.

  (** [chunk.metadata.setdefault("doc_id", document_id)] *)
Definition setdefault_doc_id (document_id : string) (chunk : Document) : Document :=
  match metadata chunk !! "doc_id" with
  | Some _ => chunk
  | None => {| page_content := page_content chunk;
               metadata := <["doc_id" := VStr document_id]> (metadata chunk) |}
  end.

  (** The chunks [ingest_pdf] hands to the vector store. *)
Definition chunks_of (document_id : string) (pages : list Document) : list Document :=
  map (setdefault_doc_id document_id) (split_documents (tag_pages document_id pages)).

  (** [PineconeVectorStore.from_documents]: every chunk becomes a new
      record; nothing is replaced. *)
Definition from_documents (pc : Pinecone) (chunks : list Document)
  : Pinecone * result unit :=
  match upsert_error ext chunks with
  | Some (n, e) =>
      ({| indexes := indexes pc; vectors := vectors pc ++ take n chunks |}, Raise e)
  | None =>
      ({| indexes := indexes pc; vectors := vectors pc ++ chunks |}, Ok tt)
  end.

  (** [ingest_pdf(file_path, doc_id)]; [uuid4] is the value
      [uuid.uuid4()] would draw. *)
Definition ingest_pdf (pc : Pinecone) (file_path : string)
    (doc_id : option string) (uuid4 : string) : Pinecone * result string :=
  if negb (PINE_CONE_AVAILABLE ext) then
    (pc, Raise (Error "Pinecone is not available. Please check your API key."))
  else
    match _ensure_pinecone_index pc with
    | (pc1, Raise e) => (pc1, Raise e)
    | (pc1, Hang) => (pc1, Hang)
    | (pc1, Ok _) =>
        let document_id := document_id_of doc_id uuid4 in
        match load ext file_path with
        | Raise e => (pc1, Raise e)
        | Hang => (pc1, Hang)
        | Ok pages =>
            match from_documents pc1 (chunks_of document_id pages) with
            | (pc2, Raise e) => (pc2, Raise e)
            | (pc2, Hang) => (pc2, Hang)
            | (pc2, Ok _) => (pc2, Ok document_id)
            end
        end
    end.

  (** [get_retriever_for_doc] *)
Definition get_retriever_for_doc (doc_id : string) : result Retriever :=
  if negb (PINE_CONE_AVAILABLE ext) then
    Raise (Error "Pinecone is not available. Please check your API key.")
  else
    Ok {| k := 5; search_filter := FEq "doc_id" (VStr doc_id) |}.

  (** Pinecone's [$eq]: the record has the key, with that value. *)
Definition matches (f : filter) (d : Document) : bool :=
  match f with
  | FEq key v => bool_decide (metadata d !! key = Some v)
  end.

  (** Records ordered from the nearest to the question. *)
Fixpoint insert_nearer (q : string) (d : Document) (l : list Document) : list Document :=
  match l with
  | [] => [d]
  | x :: l' => if nearer ext q d x then d :: l else x :: insert_nearer q d l'
  end.

Definition by_similarity (q : string) (l : list Document) : list Document :=
  foldr (insert_nearer q) [] l.

  (** The retriever invoked on a question: the [k] nearest records among
      those that pass the filter. *)
Definition retrieve (pc : Pinecone) (r : Retriever) (q : string)
  : result (list Document) :=
  if negb (bool_decide (PINECONE_INDEX_NAME ext ∈ indexes pc)) then
    Raise (missing_index_error ext)
  else
    match query_error ext q with
    | Some e => Raise e
    | None =>
        Ok (take (k r) (by_similarity q (List.filter (matches (search_filter r)) (vectors pc))))
    end.

  (** [_format_docs] *)
Definition _format_docs (docs : list Document) : string :=
  join (nl +:+ nl) (map page_content docs).

Definition DEFAULT_SYSTEM_PROMPT : string :=
  "You are a helpful assistant that answers questions based on the provided context. "
  +:+ "If you cannot find the answer in the context, please say so. "
  +:+ "Keep your answers concise and accurate.".

  (** The human message of the prompt template. *)
Definition human_message (context question : string) : string :=
  "Context:" +:+ nl +:+ context +:+ nl +:+ nl +:+ "Question: " +:+ question.

  (** What invoking the chain returns. *)
Record ChainResult := {
  answer : string;
  source_documents : list Document;
}.

  (** [build_qa_chain(doc_id)]: the chain is its retriever; the prompt and
      the model are fixed. *)
Definition build_qa_chain (doc_id : string) : result Retriever :=
  get_retriever_for_doc doc_id.

  (** [qa_chain.invoke(question)]: the [answer] branch retrieves, formats
      the context and asks the model; the [source_documents] branch runs
      the same retriever on the same question. *)
Definition invoke (pc : Pinecone) (qa_chain : Retriever) (question : string)
  : result ChainResult :=
  docs ← retrieve pc qa_chain question;
  context ← Ok (_format_docs docs);
  text ← llm ext DEFAULT_SYSTEM_PROMPT (human_message context question);
  sources ← retrieve pc qa_chain question;
  Ok {| answer := text; source_documents := sources |}.

End WithExternals.

End Pipeline.

(** ** backend/app/main.py *)

Module Backend.
Import Py Pipeline.

  (** FastAPI's [UploadFile]: the declared content type, the client's
      file name and the bytes of the stream. *)
Record UploadFile := {
  content_type : option string;
  filename : string;
  file : string;
}.

Record ChatMessage := {
  role : string;
  content : string;
}.

Record ChatRequest := {
  doc_id : string;
  question : string;
  history : option (list ChatMessage);
}.

  (** One citation of a chat response, the dict [source_info]. *)
Record SourceInfo := {
  src_page_number : value;
  src_snippet : string;
  src_doc_id : value;
}.

Record ChatResponse := {
  answer : string;
  sources : list SourceInfo;
}.

Record UploadResponse := {
  up_doc_id : string;
  up_message : string;
  up_filename : string;
}.

  (** What the client receives. *)
Inductive body :=
  | Upload (r : UploadResponse)
  | Chat (r : ChatResponse)
  | Detail (detail : string)
  | InternalServerError (detail : string).

Record Response := {
  status_code : Z;
  content_of : body;
}.

  (** The suffix after the last [c] of [s], if [c] occurs. *)
Fixpoint after_last (c : ascii) (s : string) : option string :=
  match s with
  | EmptyString => None
  | String a s' =>
      match after_last c s' with
      | Some t => Some t
      | None => if decide (a = c) then Some s' else None
      end
  end.

Fixpoint all_dots (s : string) : bool :=
  match s with
  | EmptyString => true
  | String a s' => if decide (a = "."%char) then all_dots s' else false
  end.

  (** [os.path.splitext(p)[1]]: from the last dot of the last path
      component, unless only dots come before it. *)
Definition splitext_ext (p : string) : string :=
  let base := default p (after_last "/"%char p) in
  match after_last "."%char base with
  | None => EmptyString
  | Some e =>
      let stem := prefix (String.length base - String.length e - 1) base in
      if all_dots stem then EmptyString else String "."%char e
  end.

  (** The path of the temporary copy. *)
Definition temp_path (uuid4 : string) (f : UploadFile) : string :=
  "tmp_uploads/" +:+ uuid4 +:+ splitext_ext (filename f).

  (** The [except Exception] clause of [upload_pdf]. *)
Definition upload_error_message (e : exn) : string :=
  if contains "PDF" (str e) && contains "corrupt" (lower (str e)) then
    "Le fichier PDF semble corrompu ou invalide"
  else
    "Erreur lors du traitement du PDF: " +:+ str e.

  (** The [try] block of [upload_pdf]. *)
Definition upload_try (ext : Externals) (pc : Pinecone) (f : UploadFile)
    (file_path uuid4 : string) : Pinecone * result UploadResponse :=
  if (String.length (file f) =? 0)%nat then
    (pc, Raise (HTTPException 400 "Le fichier PDF est vide"))
  else
    match ingest_pdf ext pc file_path None uuid4 with
    | (pc', Raise e) => (pc', Raise e)
    | (pc', Hang) => (pc', Hang)
    | (pc', Ok d) =>
        (pc', Ok {| up_doc_id := d;
                    up_message := "PDF traité et ingéré avec succès dans Azure OpenAI + Pinecone";
                    up_filename := filename f |})
    end.

  (** [upload_pdf(file)]; [name_uuid] names the temporary copy and
      [doc_uuid] is drawn by the ingestion. The temporary copy is written
      before the size check and removed by the [finally] clause on every
      path. The disk is not part of the state and is taken to work:
      [os.makedirs], the copy, [os.path.getsize] and [os.remove] return.
      (A failing [os.makedirs], before the [try], or a failing
      [os.remove], in the [finally] clause, would leave the handler as an
      exception that no clause catches; that path is not modelled.) The
      [except Exception] clause catches whatever the [try] block raises,
      the [HTTPException] of the size check included. *)
Definition upload_pdf (ext : Externals) (pc : Pinecone) (f : UploadFile)
    (name_uuid doc_uuid : string) : Pinecone * result UploadResponse :=
  if negb (bool_decide (content_type f = Some "application/pdf")) then
    (pc, Raise (HTTPException 400 "Le fichier doit être un PDF (application/pdf)"))
  else
    match upload_try ext pc f (temp_path name_uuid f) doc_uuid with
    | (pc', Raise e) => (pc', Raise (HTTPException 500 (upload_error_message e)))
    | r => r
    end.

  (** The dict built for one retrieved document. *)
Definition source_info (doc : Document) : SourceInfo :=
  {| src_page_number := default (VStr "N/A") (metadata doc !! "page_number");
     src_snippet :=
       slice_to 250 (page_content doc)
       +:+ (if (250 <? len (page_content doc))%nat then "..." else EmptyString);
     src_doc_id := default (VStr "N/A") (metadata doc !! "doc_id") |}.

  (** The [except Exception] clause of [chat_with_doc]. *)
Definition chat_error_detail (req_doc_id : string) (e : exn) : string :=
  if contains "index" (lower (str e)) || contains "not found" (lower (str e)) then
    "Document avec doc_id '" +:+ req_doc_id
    +:+ "' non trouvé. Assurez-vous que le document a été correctement uploadé."
  else if contains "timeout" (lower (str e)) then
    "Délai d'attente dépassé lors de la communication avec Azure OpenAI. Veuillez réessayer."
  else
    "Erreur lors de la génération de la réponse: " +:+ str e.

  (** The [try] block of [chat_with_doc]. *)
Definition chat_try (ext : Externals) (pc : Pinecone) (request : ChatRequest)
  : result ChatResponse :=
  qa_chain ← build_qa_chain ext (doc_id request);
  result ← invoke ext pc qa_chain (question request);
  Ok {| answer := Pipeline.answer result;
        sources := map source_info (source_documents result) |}.

  (** [chat_with_doc(request)] *)
Definition chat_with_doc (ext : Externals) (pc : Pinecone) (request : ChatRequest)
  : result ChatResponse :=
  if negb (truthy (doc_id request)) || negb (truthy (strip (doc_id request))) then
    Raise (HTTPException 400 "doc_id est requis")
  else if negb (truthy (question request)) || negb (truthy (strip (question request))) then
    Raise (HTTPException 400 "question est requise")
  else
    match chat_try ext pc request with
    | Raise e => Raise (HTTPException 500 (chat_error_detail (doc_id request) e))
    | r => r
    end.

  (** What the framework sends for the outcome of a handler: the value
      with status 200, an [HTTPException] with its status and detail, any
      other exception through [global_exception_handler]; no response
      while the handler does not return. *)
Definition respond {A} (wrap : A -> body) (r : result A) : option Response :=
  match r with
  | Ok a => Some {| status_code := 200; content_of := wrap a |}
  | Raise (HTTPException c d) => Some {| status_code := c; content_of := Detail d |}
  | Raise (Error m) =>
      Some {| status_code := 500;
              content_of := InternalServerError ("Une erreur interne est survenue: " +:+ m) |}
  | Hang => None
  end.

  (** [POST /upload-pdf] *)
Definition post_upload_pdf (ext : Externals) (pc : Pinecone) (f : UploadFile)
    (name_uuid doc_uuid : string) : Pinecone * option Response :=
  let r := upload_pdf ext pc f name_uuid doc_uuid in
  (r.1, respond Upload r.2).

  (** [POST /chat] *)
Definition post_chat (ext : Externals) (pc : Pinecone) (request : ChatRequest)
  : option Response :=
  respond Chat (chat_with_doc ext pc request).

End Backend.

(** ** frontend/app.py *)

Module Gateway.
Import Py.

  (** A JSON value, as [request.json], [response.json()] and [jsonify]
      see it. An object keeps its fields in a list; the first field of a
      name is the one a lookup finds. *)
#[local] Unset Elimination Schemes.
Inductive json :=
  | JNull
  | JBool (b : bool)
  | JNum (z : Z)
  | JStr (s : string)
  | JArr (items : list json)
  | JObj (fields : list (string * json)).
#[local] Set Elimination Schemes.

Fixpoint assoc (key : string) (fields : list (string * json)) : option json :=
  match fields with
  | [] => None
  | (k, v) :: rest => if decide (k = key) then Some v else assoc key rest
  end.

  (** The field [key] of an object. *)
Definition field (key : string) (j : json) : option json :=
  match j with
  | JObj fields => assoc key fields
  | _ => None
  end.

  (** The name Python prints for the type of a value. *)
Definition type_name (j : json) : string :=
  match j with
  | JNull => "NoneType"
  | JBool _ => "bool"
  | JNum _ => "int"
  | JStr _ => "str"
  | JArr _ => "list"
  | JObj _ => "dict"
  end.

  (** An expression of a handler: its value, or the message of the
      exception it raised. *)
Inductive attempt (A : Type) :=
  | Done (a : A)
  | Threw (msg : string).
Arguments Done {A} a.
Arguments Threw {A} msg.

#[global] Instance attempt_bind : MBind attempt :=
  fun A B k r => match r with Done a => k a | Threw msg => Threw msg end.

  (** [data[key]] *)
Definition getitem (data : json) (key : string) : attempt json :=
  match data with
  | JObj fields =>
      match assoc key fields with
      | Some v => Done v
      | None => Threw ("'" +:+ key +:+ "'")
      end
  | JStr _ => Threw "string indices must be integers, not 'str'"
  | JArr _ => Threw "list indices must be integers or slices, not str"
  | _ => Threw ("'" +:+ type_name data +:+ "' object is not subscriptable")
  end.

  (** [data.get(key, dflt)] *)
Definition get (data : json) (key : string) (dflt : json) : attempt json :=
  match data with
  | JObj fields => Done (default dflt (assoc key fields))
  | _ => Threw ("'" +:+ type_name data +:+ "' object has no attribute 'get'")
  end.

  (** The exceptions of [requests], each with its message: a
      [ConnectTimeout] is both a [Timeout] and a [ConnectionError]. *)
Inductive requests_exn :=
  | ConnectTimeout (msg : string)
  | ReadTimeout (msg : string)
  | ConnectionError (msg : string)
  | OtherException (msg : string).

Definition is_Timeout (e : requests_exn) : bool :=
  match e with
  | ConnectTimeout _ | ReadTimeout _ => true
  | _ => false
  end.

Definition is_ConnectionError (e : requests_exn) : bool :=
  match e with
  | ConnectTimeout _ | ConnectionError _ => true
  | _ => false
  end.

  (** [str(e)] *)
Definition message (e : requests_exn) : string :=
  match e with
  | ConnectTimeout msg | ReadTimeout msg | ConnectionError msg
  | OtherException msg => msg
  end.

  (** How a call to the backend ends: a response with its status and its
      body ([inl msg] when the body is not JSON and [response.json()]
      raises with that message), or an exception. *)
Inductive upstream :=
  | Responded (status : Z) (body : string + json)
  | Failed (e : requests_exn).

Definition BACKEND_API_URL : string := "http://localhost:8000".

  (** A call the gateway makes; the upload and the health check carry no
      JSON payload, the upload has no timeout. *)
Inductive call :=
  | PostUpload (url filename stream mime : string)
  | PostChat (url : string) (payload : json) (timeout : Z)
  | GetHealth (url : string) (timeout : Z).

  (** What the gateway answers: a [jsonify] body with its status, or the
      framework's error page for an exception nothing caught. *)
Inductive reply :=
  | Json (status : Z) (payload : json)
  | Unhandled (status : Z).

  (** [jsonify({'error': msg})] *)
Definition error (msg : json) : json := JObj [("error", msg)].

  (** [response.json()] *)
Definition response_json (body : string + json) : attempt json :=
  match body with
  | inl msg => Threw msg
  | inr j => Done j
  end.

  (** [s.endswith(suffix)] *)
Definition endswith (suffix s : string) : bool :=
  startswith (rev_str EmptyString suffix) (rev_str EmptyString s).

  (** The last clause of both handlers, [except Exception as e]. *)
Definition except_Exception (r : attempt reply) : reply :=
  match r with
  | Done x => x
  | Threw msg => Json 500 (error (JStr ("Erreur: " +:+ msg)))
  end.

  (** The outcome of a handler: the session it leaves, its reply and the
      calls it made to the backend. *)
Record outcome := {
  session_after : gmap string json;
  sent : reply;
  calls : list call;
}.

Section WithBackend.
  (** The backend as the gateway meets it. *)
Context (backend : call -> upstream).

  (** The [try] block of [upload_pdf] once the call has been answered:
      the session it leaves and the reply. The session is written as soon
      as the response's [doc_id] has been read. *)
Definition upload_answered (session : gmap string json) (filename : string)
    (status : Z) (body : string + json) : gmap string json * reply :=
  if (status =? 200) then
    match response_json body with
    | Threw msg => (session, except_Exception (Threw msg))
    | Done data =>
        match getitem data "doc_id" with
        | Threw msg => (session, except_Exception (Threw msg))
        | Done d =>
            let session' :=
              <["filename" := JStr filename]> (<["doc_id" := d]> session) in
            (session',
             except_Exception
               (d' ← getitem data "doc_id";
                m ← getitem data "message";
                Done (Json 200 (JObj [("success", JBool true);
                                      ("doc_id", d');
                                      ("filename", JStr filename);
                                      ("message", m)]))))
        end
    end
  else
    (session,
     except_Exception
       (data ← response_json body;
        detail ← get data "detail" (JStr "Erreur lors de l'upload");
        Done (Json 500 (error detail)))).

  (** The [except] clauses of [upload_pdf], in their order. *)
Definition upload_except (e : requests_exn) : reply :=
  if is_ConnectionError e then
    Json 500 (error (JStr "Impossible de se connecter au serveur backend"))
  else
    except_Exception (Threw (message e)).

  (** [upload_pdf()]; [files] is the entry [request.files['file']], its
      name and its stream. *)
Definition upload_pdf (session : gmap string json) (files : option (string * string))
  : outcome :=
  match files with
  | None =>
      {| session_after := session;
         sent := Json 400 (error (JStr "Aucun fichier sélectionné")); calls := [] |}
  | Some (filename, stream) =>
      if negb (truthy filename) then
        {| session_after := session;
           sent := Json 400 (error (JStr "Aucun fichier sélectionné")); calls := [] |}
      else if negb (endswith ".pdf" (lower filename)) then
        {| session_after := session;
           sent := Json 400 (error (JStr "Le fichier doit être un PDF")); calls := [] |}
      else
        let c := PostUpload (BACKEND_API_URL +:+ "/upload-pdf") filename stream
                            "application/pdf" in
        match backend c with
        | Failed e =>
            {| session_after := session; sent := upload_except e; calls := [c] |}
        | Responded status body =>
            let r := upload_answered session filename status body in
            {| session_after := r.1; sent := r.2; calls := [c] |}
        end
  end.

  (** The [except] clauses of [chat], in their order. *)
Definition chat_except (e : requests_exn) : reply :=
  if is_Timeout e then
    Json 408 (error (JStr "La requête a pris trop de temps. Veuillez réessayer."))
  else if is_ConnectionError e then
    Json 500 (error (JStr "Impossible de se connecter au serveur backend"))
  else
    except_Exception (Threw (message e)).

  (** The call [chat] makes for a session document and a question. *)
Definition chat_call (doc_id : json) (question : string) (history : json) : call :=
  PostChat (BACKEND_API_URL +:+ "/chat")
           (JObj [("doc_id", doc_id); ("question", JStr question); ("history", history)])
           30.

  (** The [try] block of [chat] once the call has been answered. *)
Definition chat_answered (now : string) (status : Z) (body : string + json) : reply :=
  if (status =? 200) then
    except_Exception
      (data ← response_json body;
       answer ← getitem data "answer";
       sources ← get data "sources" (JArr []);
       Done (Json 200 (JObj [("success", JBool true);
                             ("answer", answer);
                             ("sources", sources);
                             ("timestamp", JStr now)])))
  else
    except_Exception
      (data ← response_json body;
       detail ← get data "detail" (JStr "Erreur lors de la génération");
       Done (Json 500 (error detail))).

  (** [chat()]; [data] is [request.json] and [now] the clock reading. A
      body that is not an object, or a question that is not a string,
      raises outside the [try] block. *)
Definition chat (now : string) (session : gmap string json) (data : json) : outcome :=
  match session !! "doc_id" with
  | None =>
      {| session_after := session;
         sent := Json 400 (error (JStr "Veuillez d'abord uploader un PDF"));
         calls := [] |}
  | Some doc_id =>
      match get data "question" (JStr EmptyString) with
      | Done (JStr q) =>
          let question := strip q in
          if negb (truthy question) then
            {| session_after := session;
               sent := Json 400 (error (JStr "La question ne peut pas être vide"));
               calls := [] |}
          else
            match get data "history" (JArr []) with
            | Done history =>
                let c := chat_call doc_id question history in
                {| session_after := session;
                   sent := match backend c with
                           | Responded status body => chat_answered now status body
                           | Failed e => chat_except e
                           end;
                   calls := [c] |}
            | Threw msg =>
                {| session_after := session;
                   sent := except_Exception (Threw msg); calls := [] |}
            end
      | _ => {| session_after := session; sent := Unhandled 500; calls := [] |}
      end
  end.

  (** [reset_session()] *)
Definition reset_session (session : gmap string json) : outcome :=
  {| session_after := ∅;
     sent := Json 200 (JObj [("success", JBool true);
                             ("message", JStr "Session réinitialisée")]);
     calls := [] |}.

  (** The body of both branches of [health_check]. *)
Definition health_body (now : string) (backend_state : string) : json :=
  JObj [("frontend", JStr "healthy");
        ("backend", JStr backend_state);
        ("backend_url", JStr BACKEND_API_URL);
        ("timestamp", JStr now)].

  (** [health_check()] *)
Definition health_check (now : string) (session : gmap string json) : outcome :=
  let c := GetHealth (BACKEND_API_URL +:+ "/health") 5 in
  {| session_after := session;
     sent := match backend c with
             | Responded status _ =>
                 Json 200 (health_body now
                             (if (status =? 200) then "healthy" else "unreachable"))
             | Failed _ => Json 503 (health_body now "unreachable")
             end;
     calls := [c] |}.

End WithBackend.

End Gateway.

(** ** backend/app/config.py *)

Module Config.
Import Py.

  (** [not value] for what [os.getenv] returns: unset or empty. *)
Definition falsy (value : option string) : bool :=
  match value with
  | None => true
  | Some v => negb (truthy v)
  end.

  (** The names of [required_vars], in the order of the dict. *)
Definition required_names : list string :=
  ["AZURE_OPENAI_KEY"; "AZURE_OPENAI_ENDPOINT"; "AZURE_OPENAI_DEPLOYMENT";
   "PINECONE_API_KEY"].

  (** [required_vars]: each name with the value read for it. *)
Definition required_vars (env : gmap string string) : list (string * option string) :=
  map (fun name => (name, env !! name)) required_names.

  (** [missing_vars] *)
Definition missing_vars (env : gmap string string) : list string :=
  map fst (List.filter (fun item => falsy item.2) (required_vars env)).

  (** truth value of a list: the empty list is falsy *)
Definition truthy_list {A} (l : list A) : bool :=
  match l with [] => false | _ :: _ => true end.

Definition missing_message (missing : list string) : string :=
  "Configuration manquante: " +:+ join ", " missing
  +:+ ". Veuillez vérifier votre fichier .env".

Section WithParsers.
  (** Python's [int] and [float] on the text of a variable; the type of
      the temperature is left open. *)
Context {Temperature : Type}.
Context (int : string -> result Z) (float : string -> result Temperature).

  (** The module's globals once it is imported. *)
Record Settings := {
  AZURE_OPENAI_KEY : option string;
  AZURE_OPENAI_ENDPOINT : option string;
  AZURE_OPENAI_DEPLOYMENT : option string;
  AZURE_OPENAI_VERSION : string;
  AZURE_OPENAI_EMBEDDING_DEPLOYMENT : string;
  PINECONE_API_KEY : option string;
  PINECONE_INDEX_NAME : string;
  PINECONE_NAMESPACE : option string;
  PINECONE_DIMENSION : Z;
  OPENAI_TEMPERATURE : Temperature;
}.

  (** Importing the module with the environment [env] (as it is after
      [load_dotenv()]): the two numbers are parsed first, then the
      required variables are checked. *)
Definition load (env : gmap string string) : result Settings :=
  dimension ← int (default "1536" (env !! "PINECONE_DIMENSION"));
  temperature ← float (default "0.2" (env !! "OPENAI_TEMPERATURE"));
  if truthy_list (missing_vars env) then
    Raise (Error (missing_message (missing_vars env)))
  else
    Ok {| AZURE_OPENAI_KEY := env !! "AZURE_OPENAI_KEY";
          AZURE_OPENAI_ENDPOINT := env !! "AZURE_OPENAI_ENDPOINT";
          AZURE_OPENAI_DEPLOYMENT := env !! "AZURE_OPENAI_DEPLOYMENT";
          AZURE_OPENAI_VERSION := default "2024-02-01" (env !! "AZURE_OPENAI_VERSION");
          AZURE_OPENAI_EMBEDDING_DEPLOYMENT :=
            default "text-embedding-ada-002" (env !! "AZURE_OPENAI_EMBEDDING_DEPLOYMENT");
          PINECONE_API_KEY := env !! "PINECONE_API_KEY";
          PINECONE_INDEX_NAME :=
            default "azure-openai-rag-index" (env !! "PINECONE_INDEX_NAME");
          PINECONE_NAMESPACE := env !! "PINECONE_NAMESPACE";
          PINECONE_DIMENSION := dimension;
          OPENAI_TEMPERATURE := temperature |}.

End WithParsers.

End Config.

(** ** Statement of the snippet rule *)

  (** What the specification asks of the snippet of a citation [s] with
      respect to the retrieved document [doc], in characters. *)
Definition snippet_rule (doc : Pipeline.Document) (s : Backend.SourceInfo) : Prop :=
  ((250 < Py.len (Pipeline.page_content doc))%nat ->
   Backend.src_snippet s
   = Py.slice_to 250 (Pipeline.page_content doc) +:+ "...") /\
  ((Py.len (Pipeline.page_content doc) <= 250)%nat ->
   Backend.src_snippet s = Pipeline.page_content doc).

(** ** Sample deployments

    Concrete collaborators and inputs on which the model is run. *)

Module Samples.
Import Py Pipeline.

Fixpoint replicate_str (n : nat) (c : ascii) : string :=
  match n with
  | O => EmptyString
  | S n' => String c (replicate_str n' c)
  end.

  (** A page as [PyPDFLoader] yields it: the text, the source path and
      the page index counted from zero. *)
Definition pdf_page (source : string) (index : Z) (text : string) : Document :=
  {| page_content := text;
     metadata := <["page" := VInt index]> {["source" := VStr source]} |}.

  (** A deployment in which every collaborator works: the index exists
      once created, a PDF has three pages, a page is one chunk, and the
      model answers. *)
Definition working : Externals :=
  {| PINE_CONE_AVAILABLE := true;
     PINECONE_INDEX_NAME := "azure-openai-rag-index";
     list_indexes_error := None;
     create_index := Ready 1;
     load := fun path =>
       Ok [pdf_page path 0 "Introduction.";
           pdf_page path 1 (replicate_str 251 "a"%char);
           pdf_page path 2 "Conclusion."];
     split_text := fun text => [(0, text)];
     upsert_error := fun _ => None;
     missing_index_error := Error "Resource azure-openai-rag-index not found";
     query_error := fun _ => None;
     nearer := fun _ _ _ => true;
     llm := fun _ _ => Ok "The report has three parts." |}.

  (** A project whose index exists and is empty. *)
Definition empty_index : Pinecone :=
  {| indexes := ["azure-openai-rag-index"]; vectors := [] |}.


  (** A record that was stored without a page number. *)
Definition bare_chunk : Document :=
  {| page_content := "Loose text."; metadata := {["doc_id" := VStr "d2"]} |}.

Definition with_bare_chunk : Pinecone :=
  {| indexes := ["azure-openai-rag-index"]; vectors := [bare_chunk] |}.

Definition ask (doc_id : string) : Backend.ChatRequest :=
  {| Backend.doc_id := doc_id;
     Backend.question := "What is the summary?";
     Backend.history := None |}.

Definition pdf_upload (bytes : string) : Backend.UploadFile :=
  {| Backend.content_type := Some "application/pdf";
     Backend.filename := "report.pdf";
     Backend.file := bytes |}.

Definition text_upload : Backend.UploadFile :=
  {| Backend.content_type := Some "text/plain";
     Backend.filename := "notes.txt";
     Backend.file := "hello" |}.

  (** The project after [report.pdf] was uploaded and the ingestion drew
      the id [d1]. *)
Definition after_d1 : Pinecone :=
  (Backend.post_upload_pdf working empty_index (pdf_upload "%PDF-1.7") "u0" "d1").1.

  (** A gateway session with an active document, and a question. *)
Definition session_d1 : gmap string Gateway.json :=
  {["doc_id" := Gateway.JStr "d1"]}.

Definition question_body : Gateway.json :=
  Gateway.JObj [("question", Gateway.JStr "What is the summary?")].

Definition backend_times_out : Gateway.call -> Gateway.upstream :=
  fun _ => Gateway.Failed (Gateway.ReadTimeout "Read timed out. (read timeout=30)").

Definition backend_refuses : Gateway.call -> Gateway.upstream :=
  fun _ => Gateway.Failed (Gateway.ConnectionError "Connection refused").

Definition backend_healthy : Gateway.call -> Gateway.upstream :=
  fun _ => Gateway.Responded 200
             (inr (Gateway.JObj [("status", Gateway.JStr "healthy")])).

  (** The text whose UTF-8 encoding is [bytes]. *)
Definition utf8 (bytes : list nat) : string :=
  foldr (fun b text => String (ascii_of_nat b) text) EmptyString bytes.

  (** U+00A0, the no-break space; U+2003, the em space; U+20AC, the euro
      sign. *)
Definition nbsp : string := utf8 [194; 160]%nat.
Definition em_space : string := utf8 [226; 128; 131]%nat.
Definition euro : string := utf8 [226; 130; 172]%nat.

Fixpoint repeat_str (n : nat) (text : string) : string :=
  match n with
  | O => EmptyString
  | S n' => text +:+ repeat_str n' text
  end.

  (** A project with two records of document [d3]: a text of 100 euro
      signs (300 bytes) and a text of 251 euro signs. *)
Definition with_euro_chunks : Pinecone :=
  {| indexes := ["azure-openai-rag-index"];
     vectors :=
       [ {| page_content := repeat_str 100 euro;
            metadata := {["doc_id" := VStr "d3"]} |};
         {| page_content := repeat_str 251 euro;
            metadata := {["doc_id" := VStr "d3"]} |} ] |}.

  (** A deployment whose PDF loader rejects the file. *)
Definition corrupt_pdf : Externals :=
  {| PINE_CONE_AVAILABLE := true;
     PINECONE_INDEX_NAME := "azure-openai-rag-index";
     list_indexes_error := None;
     create_index := Ready 1;
     load := fun _ => Raise (Error "PDF stream is corrupted");
     split_text := fun text => [(0, text)];
     upsert_error := fun _ => None;
     missing_index_error := Error "Resource azure-openai-rag-index not found";
     query_error := fun _ => None;
     nearer := fun _ _ _ => true;
     llm := fun _ _ => Ok "The report has three parts." |}.

  (** A deployment whose completion call fails with a text that speaks of
      an index and of a timeout. *)
Definition model_fails : Externals :=
  {| PINE_CONE_AVAILABLE := true;
     PINECONE_INDEX_NAME := "azure-openai-rag-index";
     list_indexes_error := None;
     create_index := Ready 1;
     load := fun path => Ok [pdf_page path 0 "Introduction."];
     split_text := fun text => [(0, text)];
     upsert_error := fun _ => None;
     missing_index_error := Error "Resource azure-openai-rag-index not found";
     query_error := fun _ => None;
     nearer := fun _ _ _ => true;
     llm := fun _ _ => Raise (Error "Timeout: list index out of range") |}.

  (** A project in which nothing has been created yet. *)
Definition new_project : Pinecone := {| indexes := []; vectors := [] |}.

  (** Environments for the configuration, and parsers for its numbers. *)
Definition env_complete : gmap string string :=
  <["AZURE_OPENAI_KEY" := "k"]>
    (<["AZURE_OPENAI_ENDPOINT" := "https://example.openai.azure.com"]>
       (<["AZURE_OPENAI_DEPLOYMENT" := "gpt"]>
          (<["PINECONE_API_KEY" := "p"]> ∅))).

Definition env_partial : gmap string string :=
  <["AZURE_OPENAI_KEY" := "k"]>
    (<["AZURE_OPENAI_ENDPOINT" := EmptyString]>
       (<["PINECONE_DIMENSION" := "1536"]> ∅)).

Definition int_1536 (text : string) : result Z :=
  if decide (text = "1536") then Ok 1536
  else Raise (Error ("invalid literal for int() with base 10: '" +:+ text +:+ "'")).

Definition float_text (text : string) : result string := Ok text.

Definition float_02 (text : string) : result string :=
  if decide (text = "0.2") then Ok text
  else Raise (Error ("could not convert string to float: '" +:+ text +:+ "'")).

  (** Backends of the gateway: one that ingests, one that rejects, one
      whose 200 response lacks the message. *)
Definition backend_ingests : Gateway.call -> Gateway.upstream :=
  fun _ => Gateway.Responded 200
             (inr (Gateway.JObj [("doc_id", Gateway.JStr "d1");
                                 ("message", Gateway.JStr "PDF traité");
                                 ("filename", Gateway.JStr "report.pdf")])).

Definition backend_rejects : Gateway.call -> Gateway.upstream :=
  fun _ => Gateway.Responded 400
             (inr (Gateway.JObj [("detail", Gateway.JStr "question est requise")])).

Definition backend_forgets_message : Gateway.call -> Gateway.upstream :=
  fun _ => Gateway.Responded 200
             (inr (Gateway.JObj [("doc_id", Gateway.JStr "d9")])).

Definition backend_answers : Gateway.call -> Gateway.upstream :=
  fun _ => Gateway.Responded 200
             (inr (Gateway.JObj [("answer", Gateway.JStr "Three parts.")])).

End Samples.

(** * Properties *)

Import Py.

(** ** Strings *)

Lemma prefix_all (n : nat) (s : string) :
  (String.length s <= n)%nat -> prefix n s = s.
Proof.
  revert n; induction s as [|c s IH]; intros [|n] Hlen; simpl in *;
    try reflexivity; try lia.
  f_equal. apply IH. lia.
Qed.

Lemma append_empty_r (s : string) : s +:+ EmptyString = s.
Proof.
  induction s as [|c s IH]; [reflexivity|].
  change (String c (s +:+ EmptyString) = String c s). by rewrite IH.
Qed.

Lemma prefix_length (n : nat) (s : string) :
  (n <= String.length s)%nat -> String.length (prefix n s) = n.
Proof.
  revert n; induction s as [|c s IH]; intros [|n] Hlen; simpl in *;
    try reflexivity; try lia.
  f_equal. apply IH. lia.
Qed.

Lemma slice_to_all (n : nat) (s : string) :
  (len s <= n)%nat -> slice_to n s = s.
Proof.
  revert n; induction s as [|c s IH]; intros n Hlen; simpl in *; [done|].
  destruct (is_continuation c).
  - by rewrite IH.
  - destruct n as [|n]; [lia|]. rewrite IH; [done | lia].
Qed.

  (** The slice holds [n] characters when the text has that many. *)
Lemma len_slice_to (n : nat) (s : string) :
  len (slice_to n s) = Nat.min n (len s).
Proof.
  revert n; induction s as [|c s IH]; intros n; simpl; [lia|].
  destruct (is_continuation c) eqn:Hc; simpl.
  - by rewrite Hc, IH.
  - destruct n as [|n]; simpl; [done|]. rewrite Hc, IH. lia.
Qed.

  (** The slice is the beginning of the text and stops between two
      characters. *)
Lemma slice_to_prefix (n : nat) (s : string) :
  exists rest,
    s = slice_to n s +:+ rest /\
    match rest with
    | EmptyString => True
    | String c _ => is_continuation c = false
    end.
Proof.
  revert n; induction s as [|c s IH]; intros n; simpl.
  - by exists EmptyString.
  - destruct (is_continuation c) eqn:Hc.
    + destruct (IH n) as (rest & Hs & Hrest). exists rest.
      split; [|done]. change (String c s = String c (slice_to n s +:+ rest)).
      by rewrite <- Hs.
    + destruct n as [|n].
      * exists (String c s). by split.
      * destruct (IH n) as (rest & Hs & Hrest). exists rest.
        split; [|done]. change (String c s = String c (slice_to n s +:+ rest)).
        by rewrite <- Hs.
Qed.

(** ** The model on small inputs *)

Example strip_spaces : strip "  d1 " = "d1".
Proof. reflexivity. Qed.

Example blank_is_falsy : truthy (strip "   ") = false.
Proof. reflexivity. Qed.

Example strip_unicode_spaces :
  strip (Samples.nbsp +:+ " d1" +:+ Samples.em_space +:+ Samples.utf8 [194; 133]%nat)
  = "d1".
Proof. reflexivity. Qed.

Example strip_keeps_inner_and_accents :
  strip (" caf" +:+ Samples.utf8 [195; 169]%nat +:+ Samples.nbsp +:+ "au lait ")
  = "caf" +:+ Samples.utf8 [195; 169]%nat +:+ Samples.nbsp +:+ "au lait".
Proof. reflexivity. Qed.

Example every_space_is_stripped :
  strip (Samples.utf8 ([9; 10; 11; 12; 13; 28; 29; 30; 31; 32]
                       ++ [194; 133] ++ [194; 160] ++ [225; 154; 128]
                       ++ [226; 128; 128] ++ [226; 128; 138] ++ [226; 128; 168]
                       ++ [226; 128; 169] ++ [226; 128; 175] ++ [226; 129; 159]
                       ++ [227; 128; 128])%nat)
  = EmptyString.
Proof. reflexivity. Qed.

Example zero_width_space_is_kept :
  strip (Samples.utf8 [226; 128; 139]%nat) = Samples.utf8 [226; 128; 139]%nat.
Proof. reflexivity. Qed.

Example len_counts_characters :
  len (Samples.repeat_str 100 Samples.euro) = 100%nat /\
  String.length (Samples.repeat_str 100 Samples.euro) = 300%nat.
Proof. split; vm_compute; reflexivity. Qed.

Example slice_keeps_whole_characters :
  slice_to 2 ("a" +:+ Samples.euro +:+ "b") = "a" +:+ Samples.euro.
Proof. reflexivity. Qed.

Example snippet_of_100_euros :
  Backend.src_snippet
    (Backend.source_info
       {| Pipeline.page_content := Samples.repeat_str 100 Samples.euro;
          Pipeline.metadata := ∅ |})
  = Samples.repeat_str 100 Samples.euro.
Proof. vm_compute. reflexivity. Qed.

Example chat_with_nbsp_doc_id :
  Backend.post_chat Samples.working Samples.after_d1
    {| Backend.doc_id := Samples.nbsp; Backend.question := "What is the summary?";
       Backend.history := None |}
  = Some {| Backend.status_code := 400;
            Backend.content_of := Backend.Detail "doc_id est requis" |}.
Proof. reflexivity. Qed.

Example gateway_chat_with_nbsp_question :
  Gateway.chat Samples.backend_answers "12:00:00" Samples.session_d1
    (Gateway.JObj [("question", Gateway.JStr Samples.nbsp)])
  = {| Gateway.session_after := Samples.session_d1;
       Gateway.sent :=
         Gateway.Json 400
           (Gateway.error (Gateway.JStr "La question ne peut pas être vide"));
       Gateway.calls := [] |}.
Proof. reflexivity. Qed.

Example contains_not_found :
  contains "not found" (lower "Resource X Not Found") = true.
Proof. reflexivity. Qed.

Example str_of_http_exception :
  str (HTTPException 400 "Le fichier PDF est vide") = "400: Le fichier PDF est vide".
Proof. reflexivity. Qed.

Example splitext_report : Backend.splitext_ext "report.pdf" = ".pdf".
Proof. reflexivity. Qed.

Example splitext_hidden : Backend.splitext_ext ".bashrc" = EmptyString.
Proof. reflexivity. Qed.

Example snippet_of_251 :
  Backend.src_snippet
    (Backend.source_info
       {| Pipeline.page_content := Samples.replicate_str 251 "a"%char;
          Pipeline.metadata := ∅ |})
  = Samples.replicate_str 250 "a"%char +:+ "...".
Proof. vm_compute. reflexivity. Qed.

Example snippet_of_250 :
  Backend.src_snippet
    (Backend.source_info
       {| Pipeline.page_content := Samples.replicate_str 250 "a"%char;
          Pipeline.metadata := ∅ |})
  = Samples.replicate_str 250 "a"%char.
Proof. vm_compute. reflexivity. Qed.

Example stored_after_upload :
  map (fun c => (Pipeline.metadata c !! "doc_id", Pipeline.metadata c !! "page_number"))
      (Pipeline.vectors Samples.after_d1)
  = [ (Some (Pipeline.VStr "d1"), Some (Pipeline.VInt 0));
      (Some (Pipeline.VStr "d1"), Some (Pipeline.VInt 1));
      (Some (Pipeline.VStr "d1"), Some (Pipeline.VInt 2)) ].
Proof. vm_compute. reflexivity. Qed.

Example gateway_chat_forwards :
  Gateway.calls (Gateway.chat Samples.backend_healthy "12:00:00"
                   Samples.session_d1 Samples.question_body)
  = [ Gateway.PostChat "http://localhost:8000/chat"
        (Gateway.JObj [("doc_id", Gateway.JStr "d1");
                       ("question", Gateway.JStr "What is the summary?");
                       ("history", Gateway.JArr [])])
        30 ].
Proof. reflexivity. Qed.

Example gateway_upload_rejected_by_backend :
  Gateway.upload_pdf
    (fun _ => Gateway.Responded 500
                (inr (Gateway.JObj [("detail", Gateway.JStr "Erreur lors du traitement du PDF: x")])))
    ∅ (Some ("report.pdf", "%PDF-1.7"))
  = {| Gateway.session_after := ∅;
       Gateway.sent :=
         Gateway.Json 500
           (Gateway.error (Gateway.JStr "Erreur lors du traitement du PDF: x"));
       Gateway.calls :=
         [ Gateway.PostUpload "http://localhost:8000/upload-pdf" "report.pdf"
             "%PDF-1.7" "application/pdf" ] |}.
Proof. reflexivity. Qed.

(** ** The retriever *)

Section Retrieval.
Import Pipeline.
Context (ext : Externals).

Lemma insert_nearer_elem q d l x :
  x ∈ insert_nearer ext q d l -> x = d \/ x ∈ l.
Proof.
  induction l as [|y l IH]; simpl.
  - intros ->%list_elem_of_singleton. by left.
  - destruct (nearer ext q d y).
    + intros [->|H]%elem_of_cons; [by left | by right].
    + intros [->|H]%elem_of_cons.
      * right. by left.
      * destruct (IH H) as [->|H']; [by left | right; by right].
Qed.

Lemma by_similarity_elem q l x :
  x ∈ by_similarity ext q l -> x ∈ l.
Proof.
  unfold by_similarity. induction l as [|y l IH]; simpl; [done|].
  intros [->|H]%insert_nearer_elem; [by left | right; auto].
Qed.

  (** The retriever returns at most [k] records, all stored and all
      passing the filter. *)
Lemma retrieve_sound pc r q docs :
  retrieve ext pc r q = Ok docs ->
  (length docs <= k r)%nat /\
  Forall (fun c => c ∈ vectors pc /\ matches (search_filter r) c = true) docs.
Proof.
  unfold retrieve.
  destruct (negb _); [done|].
  destruct (query_error ext q); [done|].
  intros [= <-]. split.
  - rewrite length_take. lia.
  - apply Forall_forall. intros c Hc.
    apply elem_of_take in Hc as (i & Hc & _).
    apply list_elem_of_lookup_2, by_similarity_elem in Hc.
    apply list_elem_of_In, filter_In in Hc as [Hin Hm].
    split; [by apply list_elem_of_In | done].
Qed.

Lemma retriever_for_doc d r :
  get_retriever_for_doc ext d = Ok r ->
  r = {| k := 5; search_filter := FEq "doc_id" (VStr d) |}.
Proof.
  unfold get_retriever_for_doc. destruct (negb _); [done|]. by intros [= <-].
Qed.

  (** What a chat request that is answered went through. *)
Lemma chat_with_doc_Ok pc request resp :
  Backend.chat_with_doc ext pc request = Ok resp ->
  exists r docs text,
    build_qa_chain ext (Backend.doc_id request) = Ok r /\
    retrieve ext pc r (Backend.question request) = Ok docs /\
    llm ext DEFAULT_SYSTEM_PROMPT
        (human_message (_format_docs docs) (Backend.question request)) = Ok text /\
    resp = {| Backend.answer := text;
              Backend.sources := map Backend.source_info docs |}.
Proof.
  unfold Backend.chat_with_doc.
  destruct (_ || _); [done|]. destruct (_ || _); [done|].
  unfold Backend.chat_try, invoke, mbind, result_bind, bind.
  destruct (build_qa_chain ext _) as [r| |] eqn:Hr; [|done..].
  destruct (retrieve ext pc r _) as [docs| |] eqn:Hdocs; [|done..].
  destruct (llm ext _ _) as [text| |] eqn:Htext; [|done..].
  simpl. intros [= <-]. by exists r, docs, text.
Qed.

End Retrieval.

(** ** Ingestion *)

Section Ingestion.
Import Pipeline.
Context (ext : Externals).

Lemma tag_page_doc_id d i page :
  metadata (tag_page d i page) !! "doc_id" = Some (VStr d).
Proof.
  unfold tag_page; simpl.
  rewrite lookup_insert_ne by done. apply lookup_insert_eq.
Qed.

Lemma split_page_doc_id page c v :
  metadata page !! "doc_id" = Some v ->
  In c (split_page ext page) ->
  metadata c !! "doc_id" = Some v.
Proof.
  intros Hv (piece & <- & _)%in_map_iff; simpl.
  by rewrite lookup_insert_ne.
Qed.

Lemma setdefault_doc_id_keeps d c v :
  metadata c !! "doc_id" = Some v ->
  metadata (setdefault_doc_id d c) !! "doc_id" = Some v.
Proof. intros Hv. unfold setdefault_doc_id. by rewrite Hv. Qed.

  (** Every chunk handed to the store carries the document's id. *)
Lemma chunks_of_doc_id d pages :
  Forall (fun c => metadata c !! "doc_id" = Some (VStr d)) (chunks_of ext d pages).
Proof.
  apply Forall_forall. intros c Hc. unfold chunks_of in Hc.
  apply list_elem_of_In, in_map_iff in Hc as (c0 & <- & Hc0).
  apply in_flat_map in Hc0 as (p & Hp & Hc0).
  apply list_elem_of_In, elem_of_lookup_imap in Hp as (i & p0 & -> & _).
  apply setdefault_doc_id_keeps.
  eapply split_page_doc_id; [apply tag_page_doc_id | exact Hc0].
Qed.

Lemma ensure_index_vectors pc pc1 r :
  _ensure_pinecone_index ext pc = (pc1, r) -> vectors pc1 = vectors pc.
Proof.
  unfold _ensure_pinecone_index.
  destruct (negb _); [by intros [= <- _]|].
  destruct (list_indexes_error ext); [by intros [= <- _]|].
  destruct (bool_decide _); [by intros [= <- _]|].
  destruct (create_index ext); by intros [= <- _].
Qed.

  (** What a successful ingestion did. *)
Lemma ingest_pdf_Ok pc file_path doc_id uuid4 pc' d :
  ingest_pdf ext pc file_path doc_id uuid4 = (pc', Ok d) ->
  d = document_id_of doc_id uuid4 /\
  exists pages,
    load ext file_path = Ok pages /\
    vectors pc' = vectors pc ++ chunks_of ext d pages.
Proof.
  unfold ingest_pdf.
  destruct (negb _); [done|].
  destruct (_ensure_pinecone_index ext pc) as [pc1 [[]| |]] eqn:Hens; [|done..].
  apply ensure_index_vectors in Hens.
  destruct (load ext file_path) as [pages| |] eqn:Hload; [|done..].
  unfold from_documents.
  destruct (upsert_error ext _) as [[n e]|]; [done|].
  intros [= <- <-]. split; [done|].
  exists pages. simpl. by rewrite Hens.
Qed.

  (** An ingestion that raises before the store is opened leaves the
      records as they were. *)
Lemma upload_try_empty pc f path uuid4 :
  Backend.file f = EmptyString ->
  Backend.upload_try ext pc f path uuid4
  = (pc, Raise (HTTPException 400 "Le fichier PDF est vide")).
Proof. intros Hf. unfold Backend.upload_try. by rewrite Hf. Qed.

End Ingestion.

(** ** The claims about the answer service *)

Section AnswerService.
Import Pipeline.

(** C1. A chat request is answered from a retriever whose filter is the
    equality of the metadata key [doc_id] with the requested id and whose
    fan-out is 5: at most five records come back, each one stored in the
    index and each one carrying the requested [doc_id], so none carries
    the id of another document; the citations are built from them. *)
Theorem C1_retrieval_is_scoped_to_doc_id
    (ext : Externals) (pc : Pinecone)
    (request : Backend.ChatRequest) (resp : Backend.ChatResponse) :
  Backend.chat_with_doc ext pc request = Ok resp ->
  exists r docs,
    build_qa_chain ext (Backend.doc_id request) = Ok r /\
    k r = 5%nat /\
    search_filter r = FEq "doc_id" (VStr (Backend.doc_id request)) /\
    retrieve ext pc r (Backend.question request) = Ok docs /\
    (length docs <= 5)%nat /\
    Forall (fun c =>
              c ∈ vectors pc /\
              metadata c !! "doc_id" = Some (VStr (Backend.doc_id request)) /\
              forall other, other <> Backend.doc_id request ->
                            metadata c !! "doc_id" <> Some (VStr other)) docs /\
    Backend.sources resp = map Backend.source_info docs.
Proof.
  intros (r & docs & text & Hr & Hdocs & _ & ->)%chat_with_doc_Ok.
  exists r, docs.
  pose proof (retriever_for_doc _ _ _ Hr) as ->.
  destruct (retrieve_sound _ _ _ _ _ Hdocs) as [Hlen Hall]. simpl in *.
  repeat split; try done.
  eapply Forall_impl; [exact Hall|].
  intros c [Hin Hm]. apply bool_decide_eq_true in Hm.
  repeat split; try done.
  intros other Hne. rewrite Hm. congruence.
Qed.

Lemma C1_witness :
  exists r docs,
    build_qa_chain Samples.working "d1" = Ok r /\
    k r = 5%nat /\
    search_filter r = FEq "doc_id" (VStr "d1") /\
    retrieve Samples.working Samples.after_d1 r "What is the summary?" = Ok docs /\
    (length docs <= 5)%nat /\
    Forall (fun c =>
              c ∈ vectors Samples.after_d1 /\
              metadata c !! "doc_id" = Some (VStr "d1") /\
              forall other, other <> "d1" ->
                            metadata c !! "doc_id" <> Some (VStr other)) docs /\
    Backend.sources
      {| Backend.answer := "The report has three parts.";
         Backend.sources :=
           map Backend.source_info (vectors Samples.after_d1) |}
    = map Backend.source_info docs.
Proof.
  apply (C1_retrieval_is_scoped_to_doc_id
           Samples.working Samples.after_d1 (Samples.ask "d1")).
  vm_compute. reflexivity.
Defined.

(** C4. When an ingestion succeeds, the records it added to the index
    are the chunks of the loaded pages, every one of them carries the
    same [doc_id] in its metadata, and that [doc_id] (the one supplied,
    or else the generated one) is the value returned. *)
Theorem C4_ingest_tags_every_chunk
    (ext : Externals) (pc pc' : Pinecone)
    (file_path : string) (doc_id : option string) (uuid4 d : string) :
  ingest_pdf ext pc file_path doc_id uuid4 = (pc', Ok d) ->
  d = document_id_of doc_id uuid4 /\
  exists chunks,
    vectors pc' = vectors pc ++ chunks /\
    Forall (fun c => metadata c !! "doc_id" = Some (VStr d)) chunks.
Proof.
  intros [Hd (pages & _ & Hv)]%ingest_pdf_Ok. split; [done|].
  exists (chunks_of ext d pages). split; [done|]. apply chunks_of_doc_id.
Qed.

Lemma C4_witness :
  "u1" = document_id_of None "u1" /\
  exists chunks,
    vectors (ingest_pdf Samples.working Samples.empty_index
               "tmp_uploads/u0.pdf" None "u1").1
    = vectors Samples.empty_index ++ chunks /\
    Forall (fun c => metadata c !! "doc_id" = Some (VStr "u1")) chunks.
Proof.
  apply (C4_ingest_tags_every_chunk Samples.working Samples.empty_index _
           "tmp_uploads/u0.pdf" None "u1" "u1").
  vm_compute. reflexivity.
Defined.

End AnswerService.

(** ** Citations *)

Section Citations.
Import Pipeline.

Lemma source_info_snippet (doc : Document) :
  snippet_rule doc (Backend.source_info doc).
Proof.
  unfold snippet_rule, Backend.source_info. cbv [Backend.src_snippet].
  split; intros Hlen.
  - apply Nat.ltb_lt in Hlen. by rewrite Hlen.
  - apply Nat.ltb_ge in Hlen. rewrite Hlen.
    apply Nat.ltb_ge in Hlen.
    by rewrite append_empty_r, slice_to_all.
Qed.

Lemma Forall2_map_diag {A B} (P : A -> B -> Prop) (f : A -> B) (l : list A) :
  (forall x, P x (f x)) -> Forall2 P l (map f l).
Proof. intros HP. induction l; simpl; constructor; auto. Qed.

(** C5. In every chat response the citations stand one for one for the
    retrieved chunks; the snippet of a chunk whose text is longer than 250
    characters is the first 250 characters of the text followed by the
    three-dot ellipsis, and the snippet of a chunk whose text has at most
    250 characters is the text itself. Characters are counted as Python
    counts them, not bytes: a text of 100 euro signs is left whole. *)
Theorem C5_snippet_truncation
    (ext : Externals) (pc : Pinecone)
    (request : Backend.ChatRequest) (resp : Backend.ChatResponse) :
  Backend.chat_with_doc ext pc request = Ok resp ->
  exists r docs,
    build_qa_chain ext (Backend.doc_id request) = Ok r /\
    retrieve ext pc r (Backend.question request) = Ok docs /\
    Forall2 snippet_rule docs (Backend.sources resp).
Proof.
  intros (r & docs & text & Hr & Hdocs & _ & ->)%chat_with_doc_Ok.
  exists r, docs. repeat split; try done.
  simpl. apply Forall2_map_diag, source_info_snippet.
Qed.

Lemma C5_witness :
  exists r docs,
    build_qa_chain Samples.working "d3" = Ok r /\
    retrieve Samples.working Samples.with_euro_chunks r "What is the summary?"
    = Ok docs /\
    Forall2 snippet_rule docs
      [ {| Backend.src_page_number := VStr "N/A";
           Backend.src_snippet := Samples.repeat_str 100 Samples.euro;
           Backend.src_doc_id := VStr "d3" |};
        {| Backend.src_page_number := VStr "N/A";
           Backend.src_snippet := Samples.repeat_str 250 Samples.euro +:+ "...";
           Backend.src_doc_id := VStr "d3" |} ].
Proof.
  apply (C5_snippet_truncation
           Samples.working Samples.with_euro_chunks (Samples.ask "d3")
           {| Backend.answer := "The report has three parts.";
              Backend.sources := _ |}).
  vm_compute. reflexivity.
Defined.

(** C10. The citation of a chunk whose metadata has no [page_number] key
    has the string N/A as its page number, and the citation of a chunk
    whose metadata has no [doc_id] key has the string N/A as its doc_id;
    no exception is raised for either. In every chat response the
    citations are exactly the citations of the retrieved chunks, so a
    retrieval that finds nothing gives the empty list of sources. *)
Theorem C10_missing_metadata_is_NA :
  (forall doc : Document,
      metadata doc !! "page_number" = None ->
      Backend.src_page_number (Backend.source_info doc) = VStr "N/A") /\
  (forall doc : Document,
      metadata doc !! "doc_id" = None ->
      Backend.src_doc_id (Backend.source_info doc) = VStr "N/A") /\
  (forall ext pc request resp,
      Backend.chat_with_doc ext pc request = Ok resp ->
      exists r docs,
        build_qa_chain ext (Backend.doc_id request) = Ok r /\
        retrieve ext pc r (Backend.question request) = Ok docs /\
        Backend.sources resp = map Backend.source_info docs /\
        (docs = [] -> Backend.sources resp = [])).
Proof.
  repeat split.
  - intros doc Hnone. unfold Backend.source_info; simpl. by rewrite Hnone.
  - intros doc Hnone. unfold Backend.source_info; simpl. by rewrite Hnone.
  - intros ext pc request resp
      (r & docs & text & Hr & Hdocs & _ & ->)%chat_with_doc_Ok.
    exists r, docs. repeat split; try done. by intros ->.
Qed.

Lemma C10_witness :
  Backend.src_page_number (Backend.source_info Samples.bare_chunk) = VStr "N/A"
  /\ Backend.src_doc_id
       (Backend.source_info {| page_content := "x"; metadata := ∅ |}) = VStr "N/A"
  /\ Backend.chat_with_doc Samples.working Samples.with_bare_chunk (Samples.ask "d2")
     = Ok {| Backend.answer := "The report has three parts.";
             Backend.sources :=
               [ {| Backend.src_page_number := VStr "N/A";
                    Backend.src_snippet := "Loose text.";
                    Backend.src_doc_id := VStr "d2" |} ] |}
  /\ exists r docs,
       build_qa_chain Samples.working "zz" = Ok r /\
       retrieve Samples.working Samples.with_bare_chunk r "What is the summary?" = Ok docs /\
       @nil Backend.SourceInfo = map Backend.source_info docs /\
       (docs = [] -> @nil Backend.SourceInfo = []).
Proof.
  destruct C10_missing_metadata_is_NA as (Hpage & Hdoc & Hresp).
  split; [apply Hpage; vm_compute; reflexivity|].
  split; [apply Hdoc; vm_compute; reflexivity|].
  split; [vm_compute; reflexivity|].
  apply (Hresp Samples.working Samples.with_bare_chunk (Samples.ask "zz")
           {| Backend.answer := "The report has three parts.";
              Backend.sources := [] |}).
  vm_compute. reflexivity.
Defined.

End Citations.

(** ** Where the service departs from its specification *)

Section Departures.
Import Pipeline.

  (** An upload that does not declare the PDF content type is refused
      with status 400 and the message of the check, and nothing is
      written. *)
Lemma upload_non_pdf_rejected ext pc f name_uuid doc_uuid :
  Backend.content_type f <> Some "application/pdf" ->
  Backend.post_upload_pdf ext pc f name_uuid doc_uuid
  = (pc, Some {| Backend.status_code := 400;
                 Backend.content_of :=
                   Backend.Detail "Le fichier doit être un PDF (application/pdf)" |}).
Proof.
  intros Hct. unfold Backend.post_upload_pdf, Backend.upload_pdf.
  by rewrite bool_decide_eq_false_2.
Qed.

(** C2. An upload declared as a PDF whose saved stream has zero bytes:
    the check raises the 400 error with the message of the empty file
    inside the [try] block, the [except Exception] clause of the same
    function catches it, and the client receives status 500 with the
    message wrapped in the processing-error text. Nothing is written to
    the vector store. *)
Theorem C2_empty_pdf_answered_with_500
    (ext : Externals) (pc : Pinecone) (name : string) (name_uuid doc_uuid : string) :
  Backend.post_upload_pdf ext pc
    {| Backend.content_type := Some "application/pdf";
       Backend.filename := name;
       Backend.file := EmptyString |} name_uuid doc_uuid
  = (pc, Some {| Backend.status_code := 500;
                 Backend.content_of :=
                   Backend.Detail
                     "Erreur lors du traitement du PDF: 400: Le fichier PDF est vide" |}).
Proof. reflexivity. Qed.

Lemma filter_none {A} (f : A -> bool) (l : list A) :
  Forall (fun x => f x = false) l -> List.filter f l = [].
Proof.
  induction 1 as [|x l Hx _ IH]; simpl; [done|]. by rewrite Hx.
Qed.

  (** A doc_id that no stored record carries is not an error: with the
      index in place and the model answering, the request succeeds with
      the model's text and no source. *)
Lemma unknown_doc_id_is_answered ext pc request text :
  PINE_CONE_AVAILABLE ext = true ->
  PINECONE_INDEX_NAME ext ∈ indexes pc ->
  query_error ext (Backend.question request) = None ->
  truthy (strip (Backend.doc_id request)) = true ->
  truthy (strip (Backend.question request)) = true ->
  Forall (fun c => metadata c !! "doc_id" <> Some (VStr (Backend.doc_id request)))
         (vectors pc) ->
  llm ext DEFAULT_SYSTEM_PROMPT
      (human_message EmptyString (Backend.question request)) = Ok text ->
  Backend.chat_with_doc ext pc request
  = Ok {| Backend.answer := text; Backend.sources := [] |}.
Proof.
  intros Hav Hidx Hq Hd Hqn Hnone Hllm.
  assert (truthy (Backend.doc_id request) = true) as Hd'.
  { destruct (Backend.doc_id request); [done|reflexivity]. }
  assert (truthy (Backend.question request) = true) as Hqn'.
  { destruct (Backend.question request); [done|reflexivity]. }
  unfold Backend.chat_with_doc. rewrite Hd, Hd', Hqn, Hqn'. simpl.
  unfold Backend.chat_try, build_qa_chain, get_retriever_for_doc.
  rewrite Hav. simpl. unfold invoke, retrieve.
  rewrite bool_decide_eq_true_2 by done. simpl. rewrite Hq. simpl.
  rewrite filter_none.
  - simpl. unfold _format_docs. simpl. by rewrite Hllm.
  - eapply Forall_impl; [exact Hnone|]. intros c Hc.
    by apply bool_decide_eq_false_2.
Qed.

  (** An exception whose text speaks of something not found is what the
      service reports as a missing document. *)
Lemma not_found_detail doc_id e :
  contains "not found" (lower (str e)) = true ->
  Backend.chat_error_detail doc_id e
  = "Document avec doc_id '" +:+ doc_id
    +:+ "' non trouvé. Assurez-vous que le document a été correctement uploadé.".
Proof.
  intros H. unfold Backend.chat_error_detail. rewrite H.
  by rewrite orb_true_r.
Qed.

(** C3. A question about a doc_id that no stored record carries, asked
    while the index exists and the model answers: retrieval returns the
    empty list, no exception is raised, and the response has status 200
    with the model's text and no source, not a 500-class error saying
    that the document was not found. *)
Theorem C3_unknown_doc_id_answered_with_200 :
  Backend.post_chat Samples.working Samples.after_d1 (Samples.ask "unknown")
  = Some {| Backend.status_code := 200;
            Backend.content_of :=
              Backend.Chat {| Backend.answer := "The report has three parts.";
                              Backend.sources := [] |} |}.
Proof. vm_compute. reflexivity. Qed.

  (** The fallback of the page loop numbers the pages from one. *)
Lemma fallback_page_number d pages (i : nat) page :
  pages !! i = Some page ->
  metadata page !! "page" = None ->
  exists tagged,
    tag_pages d pages !! i = Some tagged /\
    metadata tagged !! "page_number" = Some (VInt (Z.of_nat i + 1)).
Proof.
  intros Hi Hnone. exists (tag_page d (Z.of_nat (S i)) page). split.
  - unfold tag_pages. by rewrite list_lookup_imap, Hi.
  - unfold tag_page; simpl. rewrite lookup_insert_eq.
    rewrite lookup_insert_ne by done. rewrite Hnone. simpl.
    do 2 f_equal. lia.
Qed.

  (** The page index a loader stored under [page] takes precedence. *)
Lemma loader_page_number d i page v :
  metadata page !! "page" = Some v ->
  metadata (tag_page d i page) !! "page_number" = Some v.
Proof.
  intros Hv. unfold tag_page; simpl. rewrite lookup_insert_eq.
  rewrite lookup_insert_ne by done. by rewrite Hv.
Qed.

(** C6. The scenario of the three-page [report.pdf]: the upload returns
    the doc_id [d1]; the question against [d1] is answered with a
    non-empty text and three citations whose doc_id is [d1]; their page
    numbers are the loader's page indexes 0, 1 and 2, and 0 is not one of
    1, 2, 3. *)
Theorem C6_page_numbers_count_from_zero :
  (Backend.post_upload_pdf Samples.working Samples.empty_index
     (Samples.pdf_upload "%PDF-1.7") "u0" "d1").2
  = Some {| Backend.status_code := 200;
            Backend.content_of :=
              Backend.Upload
                {| Backend.up_doc_id := "d1";
                   Backend.up_message :=
                     "PDF traité et ingéré avec succès dans Azure OpenAI + Pinecone";
                   Backend.up_filename := "report.pdf" |} |}
  /\ Backend.post_chat Samples.working Samples.after_d1 (Samples.ask "d1")
     = Some {| Backend.status_code := 200;
               Backend.content_of :=
                 Backend.Chat
                   {| Backend.answer := "The report has three parts.";
                      Backend.sources :=
                        [ {| Backend.src_page_number := VInt 0;
                             Backend.src_snippet := "Introduction.";
                             Backend.src_doc_id := VStr "d1" |};
                          {| Backend.src_page_number := VInt 1;
                             Backend.src_snippet :=
                               Samples.replicate_str 250 "a"%char +:+ "...";
                             Backend.src_doc_id := VStr "d1" |};
                          {| Backend.src_page_number := VInt 2;
                             Backend.src_snippet := "Conclusion.";
                             Backend.src_doc_id := VStr "d1" |} ] |} |}
  /\ VInt 0 ∉ [VInt 1; VInt 2; VInt 3].
Proof.
  split; [vm_compute; reflexivity|].
  split; [vm_compute; reflexivity|].
  intros H. repeat (apply elem_of_cons in H as [H|H]; [discriminate H|]).
  by apply elem_of_nil in H.
Qed.

End Departures.

(** ** The claims about the gateway *)

Section GatewayClaims.
Import Gateway.
Context (backend : call -> upstream).

(** C7. A chat request to the gateway made while the session holds no
    doc_id is answered with status 400 and the error asking to upload a
    PDF first, whatever the request body is; the session is left as it
    was and no call is made to the backend. A chat request that follows a
    session reset is answered this way, whatever the session held. *)
Theorem C7_chat_without_document
    (now : string) (session : gmap string json) (data : json) :
  (session !! "doc_id" = None ->
   chat backend now session data
   = {| session_after := session;
        sent := Json 400 (error (JStr "Veuillez d'abord uploader un PDF"));
        calls := [] |})
  /\ chat backend now (session_after (reset_session session)) data
     = {| session_after := ∅;
          sent := Json 400 (error (JStr "Veuillez d'abord uploader un PDF"));
          calls := [] |}.
Proof.
  split.
  - intros Hnone. unfold chat. by rewrite Hnone.
  - unfold chat, reset_session; simpl. by rewrite lookup_empty.
Qed.

  (** The calls of [chat]: none, or the one chat call with its timeout. *)
Lemma chat_calls now session data c :
  c ∈ calls (chat backend now session data) ->
  calls (chat backend now session data) = [c] /\
  (exists payload, c = PostChat (BACKEND_API_URL +:+ "/chat") payload 30) /\
  sent (chat backend now session data)
  = match backend c with
    | Responded status body => chat_answered now status body
    | Failed e => chat_except e
    end.
Proof.
  unfold chat.
  destruct (session !! "doc_id") as [d|]; simpl; [|by intros ?%elem_of_nil].
  destruct (get data "question" _) as [[| | |q| |]|]; simpl;
    try by intros ?%elem_of_nil.
  destruct (negb _); simpl; [by intros ?%elem_of_nil|].
  destruct (get data "history" _) as [h|]; simpl;
    try by intros ?%elem_of_nil.
  intros ->%list_elem_of_singleton. repeat split. by eexists.
Qed.

(** C8. Every call the gateway's chat makes to the backend carries the
    timeout 30. When that call ends in a timeout the client receives
    status 408 with a JSON object holding the error of the request that
    took too long; when it ends in a connection failure that is not a
    timeout the client receives status 500 with a JSON object holding
    the error of the backend that cannot be reached. The two replies
    differ in status and in message. *)
Theorem C8_chat_timeout_and_connection_errors
    (now : string) (session : gmap string json) (data : json) (c : call) :
  c ∈ calls (chat backend now session data) ->
  (exists payload, c = PostChat (BACKEND_API_URL +:+ "/chat") payload 30) /\
  (forall e, backend c = Failed e -> is_Timeout e = true ->
     sent (chat backend now session data)
     = Json 408 (error (JStr "La requête a pris trop de temps. Veuillez réessayer."))) /\
  (forall e, backend c = Failed e -> is_Timeout e = false ->
     is_ConnectionError e = true ->
     sent (chat backend now session data)
     = Json 500 (error (JStr "Impossible de se connecter au serveur backend"))) /\
  Json 408 (error (JStr "La requête a pris trop de temps. Veuillez réessayer."))
  <> Json 500 (error (JStr "Impossible de se connecter au serveur backend")).
Proof.
  intros (_ & Hc & Hsent)%chat_calls. split; [done|].
  split; [|split].
  - intros e He Ht. rewrite Hsent, He. unfold chat_except. by rewrite Ht.
  - intros e He Ht Hce. rewrite Hsent, He. unfold chat_except. by rewrite Ht, Hce.
  - discriminate.
Qed.

(** C9. The gateway's health endpoint always answers with the JSON
    object of the four fields frontend, backend, backend_url and
    timestamp, in which frontend is healthy. When the health call to the
    backend fails, whatever the exception, backend is unreachable and the
    status is 503; when the backend responds, the status is 200, and
    backend is healthy exactly when the backend's status is 200. The
    session is untouched. *)
Theorem C9_health_never_fails (now : string) (session : gmap string json) :
  let c := GetHealth (BACKEND_API_URL +:+ "/health") 5 in
  let o := health_check backend now session in
  calls o = [c] /\
  session_after o = session /\
  (exists status state,
     sent o = Json status (health_body now state) /\
     field "frontend" (health_body now state) = Some (JStr "healthy")) /\
  (forall e, backend c = Failed e ->
     sent o = Json 503 (health_body now "unreachable")) /\
  (forall status body, backend c = Responded status body ->
     sent o = Json 200 (health_body now
                          (if status =? 200 then "healthy" else "unreachable"))).
Proof.
  intros c o. subst o. unfold health_check; simpl. fold c.
  split; [done|]. split; [done|]. split; [|split].
  - destruct (backend c) as [status body|e]; eexists _, _; split; reflexivity.
  - by intros e ->.
  - by intros status body ->.
Qed.

End GatewayClaims.

Lemma C7_witness :
  Gateway.chat Samples.backend_healthy "12:00:00" ∅ Samples.question_body
  = {| Gateway.session_after := ∅;
       Gateway.sent :=
         Gateway.Json 400
           (Gateway.error (Gateway.JStr "Veuillez d'abord uploader un PDF"));
       Gateway.calls := [] |}
  /\ Gateway.chat Samples.backend_healthy "12:00:00"
       (Gateway.session_after (Gateway.reset_session Samples.session_d1))
       Samples.question_body
     = {| Gateway.session_after := ∅;
          Gateway.sent :=
            Gateway.Json 400
              (Gateway.error (Gateway.JStr "Veuillez d'abord uploader un PDF"));
          Gateway.calls := [] |}.
Proof.
  split.
  - apply (proj1 (C7_chat_without_document Samples.backend_healthy "12:00:00" ∅
                    Samples.question_body)).
    vm_compute. reflexivity.
  - exact (proj2 (C7_chat_without_document Samples.backend_healthy "12:00:00"
                    Samples.session_d1 Samples.question_body)).
Defined.

Lemma C8_witness :
  let c := Gateway.chat_call (Gateway.JStr "d1") "What is the summary?"
             (Gateway.JArr []) in
  (exists payload,
     c = Gateway.PostChat (Gateway.BACKEND_API_URL +:+ "/chat") payload 30)
  /\ Gateway.sent (Gateway.chat Samples.backend_times_out "12:00:00"
                     Samples.session_d1 Samples.question_body)
     = Gateway.Json 408
         (Gateway.error
            (Gateway.JStr "La requête a pris trop de temps. Veuillez réessayer."))
  /\ Gateway.sent (Gateway.chat Samples.backend_refuses "12:00:00"
                     Samples.session_d1 Samples.question_body)
     = Gateway.Json 500
         (Gateway.error
            (Gateway.JStr "Impossible de se connecter au serveur backend")).
Proof.
  intros c.
  assert (c ∈ Gateway.calls (Gateway.chat Samples.backend_times_out "12:00:00"
                               Samples.session_d1 Samples.question_body)) as Hin1
    by (vm_compute; apply list_elem_of_here).
  assert (c ∈ Gateway.calls (Gateway.chat Samples.backend_refuses "12:00:00"
                               Samples.session_d1 Samples.question_body)) as Hin2
    by (vm_compute; apply list_elem_of_here).
  destruct (C8_chat_timeout_and_connection_errors Samples.backend_times_out
              "12:00:00" Samples.session_d1 Samples.question_body c Hin1)
    as (Hc & Htimeout & _ & _).
  destruct (C8_chat_timeout_and_connection_errors Samples.backend_refuses
              "12:00:00" Samples.session_d1 Samples.question_body c Hin2)
    as (_ & _ & Hrefused & _).
  split; [exact Hc|]. split.
  - apply (Htimeout (Gateway.ReadTimeout "Read timed out. (read timeout=30)"));
      reflexivity.
  - apply (Hrefused (Gateway.ConnectionError "Connection refused")); reflexivity.
Defined.

Lemma C9_witness :
  Gateway.sent (Gateway.health_check Samples.backend_refuses "2026-01-01T12:00:00" ∅)
  = Gateway.Json 503 (Gateway.health_body "2026-01-01T12:00:00" "unreachable")
  /\ Gateway.sent (Gateway.health_check Samples.backend_healthy "2026-01-01T12:00:00" ∅)
     = Gateway.Json 200 (Gateway.health_body "2026-01-01T12:00:00" "healthy").
Proof.
  split.
  - apply (C9_health_never_fails Samples.backend_refuses "2026-01-01T12:00:00" ∅)
      with (e := Gateway.ConnectionError "Connection refused").
    reflexivity.
  - apply (C9_health_never_fails Samples.backend_healthy "2026-01-01T12:00:00" ∅)
      with (status := 200)
           (body := inr (Gateway.JObj [("status", Gateway.JStr "healthy")])).
    reflexivity.
Defined.

(** * Further properties of the code *)

(** ** Substrings *)

Lemma append_cons (c : ascii) (a b : string) :
  String c a +:+ b = String c (a +:+ b).
Proof. reflexivity. Qed.

Lemma startswith_refl (s : string) : startswith s s = true.
Proof.
  induction s as [|c s IH]; simpl; [done|]. by rewrite decide_True.
Qed.

Lemma startswith_app (n a b : string) :
  startswith n a = true -> startswith n (a +:+ b) = true.
Proof.
  revert a; induction n as [|c n IH]; intros a; [done|].
  destruct a as [|c' a]; [done|]. rewrite append_cons. simpl.
  destruct (decide (c = c')); [apply IH | done].
Qed.

Lemma contains_unfold (n hay : string) :
  contains n hay
  = startswith n hay
    || match hay with
       | EmptyString => false
       | String _ hay' => contains n hay'
       end.
Proof. by destruct hay. Qed.

Lemma contains_refl (s : string) : contains s s = true.
Proof. rewrite contains_unfold, startswith_refl. done. Qed.

Lemma contains_app_l (n a b : string) :
  contains n a = true -> contains n (a +:+ b) = true.
Proof.
  induction a as [|c a IH]; rewrite (contains_unfold n).
  - rewrite orb_false_r. intros H. destruct n; [|done].
    rewrite contains_unfold. done.
  - intros [H|H]%orb_true_iff; rewrite contains_unfold.
    + by rewrite (startswith_app _ _ _ H).
    + rewrite append_cons, (IH H). apply orb_true_r.
Qed.

Lemma contains_app_r (n a b : string) :
  contains n b = true -> contains n (a +:+ b) = true.
Proof.
  intros H. induction a as [|c a IH]; [done|].
  rewrite append_cons, contains_unfold, IH. apply orb_true_r.
Qed.

(** ** The pipeline *)

Section PipelineMore.
Import Pipeline.
Context (ext : Externals).

Lemma insert_nearer_length q d l :
  length (insert_nearer ext q d l) = S (length l).
Proof.
  induction l as [|x l IH]; simpl; [done|].
  destruct (nearer ext q d x); simpl; [done | by rewrite IH].
Qed.

Lemma by_similarity_length q l :
  length (by_similarity ext q l) = length l.
Proof.
  unfold by_similarity. induction l as [|x l IH]; simpl; [done|].
  by rewrite insert_nearer_length, IH.
Qed.

Lemma filter_all {A} (f : A -> bool) (l : list A) :
  Forall (fun x => f x = true) l -> List.filter f l = l.
Proof.
  induction 1 as [|x l Hx _ IH]; simpl; [done|]. by rewrite Hx, IH.
Qed.

  (** What an ingestion leaves in the project, however it ends. *)
Lemma ingest_written pc file_path doc_id uuid4 :
  exists written,
    vectors (ingest_pdf ext pc file_path doc_id uuid4).1 = vectors pc ++ written /\
    Forall (fun c => metadata c !! "doc_id"
                     = Some (VStr (document_id_of doc_id uuid4))) written /\
    (forall name, name ∈ indexes pc ->
                  name ∈ indexes (ingest_pdf ext pc file_path doc_id uuid4).1) /\
    (PINECONE_INDEX_NAME ext ∈ indexes pc ->
     indexes (ingest_pdf ext pc file_path doc_id uuid4).1 = indexes pc).
Proof.
  unfold ingest_pdf.
  destruct (negb _).
  { exists []. simpl. by rewrite app_nil_r. }
  assert (exists pc1 r1,
             _ensure_pinecone_index ext pc = (pc1, r1) /\
             vectors pc1 = vectors pc /\
             (forall name, name ∈ indexes pc -> name ∈ indexes pc1) /\
             (PINECONE_INDEX_NAME ext ∈ indexes pc -> indexes pc1 = indexes pc))
    as (pc1 & r1 & -> & Hv & Hi & Hsame).
  { unfold _ensure_pinecone_index.
    destruct (negb _); [by eexists _, _|].
    destruct (list_indexes_error ext); [by eexists _, _|].
    destruct (bool_decide _) eqn:Hin; [by eexists _, _|].
    apply bool_decide_eq_false in Hin.
    destruct (create_index ext); eexists _, _; (split; [done|]); simpl;
      repeat split; try done; try (intros name Hn; apply elem_of_app; by left). }
  destruct r1 as [[]| |]; try (exists []; simpl; by rewrite app_nil_r, Hv).
  destruct (load ext file_path) as [pages| |];
    try (exists []; simpl; by rewrite app_nil_r, Hv).
  unfold from_documents.
  pose proof (chunks_of_doc_id ext (document_id_of doc_id uuid4) pages) as Htag.
  destruct (upsert_error ext _) as [[n e]|]; simpl.
  - exists (take n (chunks_of ext (document_id_of doc_id uuid4) pages)).
    rewrite Hv. repeat split; try done. by apply Forall_take.
  - exists (chunks_of ext (document_id_of doc_id uuid4) pages).
    rewrite Hv. repeat split; done.
Qed.

  (** A successful bootstrap leaves the index in place and can be
      repeated. *)
Lemma ensure_index_Ok pc pc1 :
  _ensure_pinecone_index ext pc = (pc1, Ok tt) ->
  PINECONE_INDEX_NAME ext ∈ indexes pc1 /\
  vectors pc1 = vectors pc /\
  _ensure_pinecone_index ext pc1 = (pc1, Ok tt).
Proof.
  unfold _ensure_pinecone_index.
  destruct (negb _); [done|].
  destruct (list_indexes_error ext); [done|].
  destruct (bool_decide _) eqn:Hin.
  - intros [= <-]. apply bool_decide_eq_true in Hin.
    repeat split; try done. by rewrite bool_decide_eq_true_2.
  - destruct (create_index ext); try done.
    intros [= <-]. simpl.
    assert (PINECONE_INDEX_NAME ext ∈ indexes pc ++ [PINECONE_INDEX_NAME ext]) as H.
    { apply elem_of_app. right. apply list_elem_of_here. }
    repeat split; try done. by rewrite bool_decide_eq_true_2.
Qed.

  (** X1. [_ensure_pinecone_index] is idempotent: when it succeeds the
      configured index is among the project's indexes, the stored records
      are untouched, and running it again on the resulting project
      changes nothing and succeeds. *)
Theorem ensure_index_idempotent pc pc1 :
  _ensure_pinecone_index ext pc = (pc1, Ok tt) ->
  PINECONE_INDEX_NAME ext ∈ indexes pc1 /\
  vectors pc1 = vectors pc /\
  _ensure_pinecone_index ext pc1 = (pc1, Ok tt).
Proof. apply ensure_index_Ok. Qed.

  (** X2. An ingestion whose collaborators all work returns: with
      Pinecone available, the index listed or its creation ending ready,
      the loader returning the pages and the store accepting the chunks,
      [ingest_pdf] returns the supplied id (or the generated one when none
      or an empty one is supplied), the records of the project are the
      former ones followed by the chunks of the pages, and the index
      exists afterwards. *)
Theorem ingest_pdf_succeeds pc file_path doc_id uuid4 pages :
  PINE_CONE_AVAILABLE ext = true ->
  list_indexes_error ext = None ->
  (PINECONE_INDEX_NAME ext ∈ indexes pc \/ exists polls, create_index ext = Ready polls) ->
  load ext file_path = Ok pages ->
  upsert_error ext (chunks_of ext (document_id_of doc_id uuid4) pages) = None ->
  (ingest_pdf ext pc file_path doc_id uuid4).2 = Ok (document_id_of doc_id uuid4) /\
  vectors (ingest_pdf ext pc file_path doc_id uuid4).1
  = vectors pc ++ chunks_of ext (document_id_of doc_id uuid4) pages /\
  PINECONE_INDEX_NAME ext ∈ indexes (ingest_pdf ext pc file_path doc_id uuid4).1.
Proof.
  intros Hav Hlist Hidx Hload Hup.
  unfold ingest_pdf, _ensure_pinecone_index. rewrite Hav, Hlist. simpl.
  destruct (bool_decide _) eqn:Hin.
  - apply bool_decide_eq_true in Hin.
    rewrite Hload. unfold from_documents. rewrite Hup. by simpl.
  - apply bool_decide_eq_false in Hin.
    destruct Hidx as [Hidx|[polls Hready]]; [done|]. rewrite Hready.
    rewrite Hload. unfold from_documents. rewrite Hup. simpl.
    repeat split; try done. apply elem_of_app. right. apply list_elem_of_here.
Qed.

  (** X3. What every chunk handed to the store is made of: it is a piece
      the splitter cut from one page; its text is that piece; its
      metadata holds the document id, the page number (the loader's
      [page] value when the page has one, else the position of the page
      counted from one) and the start offset of the piece; every other
      key is the page's own. *)
Theorem chunks_carry_page_metadata d pages :
  Forall (fun c =>
            exists (i : nat) page piece,
              pages !! i = Some page /\
              piece ∈ split_text ext (page_content page) /\
              page_content c = piece.2 /\
              metadata c !! "doc_id" = Some (VStr d) /\
              metadata c !! "page_number"
              = Some (default (VInt (Z.of_nat i + 1)) (metadata page !! "page")) /\
              metadata c !! "start_index" = Some (VInt piece.1) /\
              forall key, key <> "doc_id" -> key <> "page_number" ->
                          key <> "start_index" ->
                          metadata c !! key = metadata page !! key)
         (chunks_of ext d pages).
Proof.
  apply Forall_forall. intros c Hc. unfold chunks_of in Hc.
  apply list_elem_of_In, in_map_iff in Hc as (c0 & <- & Hc0).
  apply in_flat_map in Hc0 as (p & Hp & Hc0).
  apply list_elem_of_In, elem_of_lookup_imap in Hp as (i & page & -> & Hi).
  apply in_map_iff in Hc0 as (piece & <- & Hpiece).
  exists i, page, piece.
  unfold setdefault_doc_id, tag_page; simpl.
  rewrite lookup_insert_ne by done. rewrite lookup_insert_ne by done.
  rewrite lookup_insert_eq. simpl.
  split; [done|]. split; [by apply list_elem_of_In|]. split; [done|].
  split; [by rewrite !lookup_insert_ne, lookup_insert_eq by done|].
  split.
  { rewrite lookup_insert_ne by done. rewrite lookup_insert_eq.
    rewrite lookup_insert_ne by done. do 3 f_equal. lia. }
  split; [by rewrite lookup_insert_eq|].
  intros key H1 H2 H3. by rewrite !lookup_insert_ne by done.
Qed.

  (** X4. Ingest then retrieve: after a successful ingestion under an id
      that no record of the project carried before, the retriever built
      for that id returns, for any question whose query does not fail,
      the five nearest of exactly the chunks of that ingestion (all of
      them when there are at most five). *)
Theorem ingest_then_retrieve pc pc' file_path doc_id uuid4 d q :
  ingest_pdf ext pc file_path doc_id uuid4 = (pc', Ok d) ->
  query_error ext q = None ->
  Forall (fun c => metadata c !! "doc_id" <> Some (VStr d)) (vectors pc) ->
  exists pages r,
    load ext file_path = Ok pages /\
    get_retriever_for_doc ext d = Ok r /\
    retrieve ext pc' r q
    = Ok (take 5 (by_similarity ext q (chunks_of ext d pages))) /\
    length (take 5 (by_similarity ext q (chunks_of ext d pages)))
    = Nat.min 5 (length (chunks_of ext d pages)).
Proof.
  intros Hing Hq Hold.
  destruct (ingest_pdf_Ok ext _ _ _ _ _ _ Hing) as (Hd & pages & Hload & Hv).
  exists pages, {| k := 5; search_filter := FEq "doc_id" (VStr d) |}.
  assert (PINE_CONE_AVAILABLE ext = true /\ PINECONE_INDEX_NAME ext ∈ indexes pc')
    as [Hav Hidx].
  { revert Hing. unfold ingest_pdf.
    destruct (PINE_CONE_AVAILABLE ext); simpl; [|done].
    destruct (_ensure_pinecone_index ext pc) as [pc1 [[]| |]] eqn:Hens; try done.
    apply ensure_index_Ok in Hens as (Hin & _ & _).
    destruct (load ext file_path); try done.
    unfold from_documents. destruct (upsert_error ext _) as [[]|]; try done.
    by intros [= <- _]. }
  split; [done|]. split.
  { unfold get_retriever_for_doc. by rewrite Hav. }
  split.
  - unfold retrieve. rewrite bool_decide_eq_true_2 by done. simpl.
    rewrite Hq, Hv, List.filter_app. simpl.
    rewrite filter_none, filter_all; [done| |].
    + eapply Forall_impl; [apply chunks_of_doc_id|].
      intros c Hc. by apply bool_decide_eq_true_2.
    + eapply Forall_impl; [exact Hold|].
      intros c Hc. by apply bool_decide_eq_false_2.
  - rewrite length_take, by_similarity_length. lia.
Qed.

  (** X5. Isolation between documents: an ingestion under one id, however
      it ends (success, failure, or a failure after part of the chunks
      were written), does not change what the retriever of any other id
      returns for any question, as long as the index existed before. *)
Theorem ingest_leaves_other_documents pc file_path doc_id uuid4 d q r :
  PINECONE_INDEX_NAME ext ∈ indexes pc ->
  d <> document_id_of doc_id uuid4 ->
  get_retriever_for_doc ext d = Ok r ->
  retrieve ext (ingest_pdf ext pc file_path doc_id uuid4).1 r q
  = retrieve ext pc r q.
Proof.
  intros Hidx Hne ->%retriever_for_doc.
  destruct (ingest_written pc file_path doc_id uuid4)
    as (written & Hv & Htag & _ & Hsame).
  unfold retrieve. rewrite Hv, (Hsame Hidx). simpl.
  rewrite List.filter_app, (filter_none _ written), app_nil_r; [done|].
  eapply Forall_impl; [exact Htag|].
  intros c Hc. apply bool_decide_eq_false_2. rewrite Hc. congruence.
Qed.

  (** X6. The prompt shows the model what was retrieved: the human
      message built for a question holds the question and the text of
      every retrieved document verbatim. *)
Theorem prompt_holds_question_and_chunks (docs : list Document) (question : string) :
  contains question (human_message (_format_docs docs) question) = true /\
  Forall (fun d => contains (page_content d)
                     (human_message (_format_docs docs) question) = true) docs.
Proof.
  unfold human_message. split.
  - do 6 apply contains_app_r. apply contains_refl.
  - assert (Forall (fun d => contains (page_content d) (_format_docs docs) = true) docs)
      as Hctx.
    { unfold _format_docs. induction docs as [|d docs IH]; [constructor|].
      simpl. destruct docs as [|d' docs].
      - constructor; [apply contains_refl | constructor].
      - constructor.
        + apply contains_app_l, contains_refl.
        + eapply Forall_impl; [exact IH|]. intros x Hx.
          by do 2 apply contains_app_r. }
    eapply Forall_impl; [exact Hctx|]. intros d Hd.
    do 2 apply contains_app_r. by apply contains_app_l.
Qed.

End PipelineMore.

(** ** The answer service's endpoints *)

Section BackendMore.
Import Pipeline.
Context (ext : Externals) (pc : Pinecone).

Lemma truthy_strip (s : string) : truthy (strip s) = true -> truthy s = true.
Proof. by destruct s. Qed.

  (** X7. Validation of a chat request comes before anything else: a
      doc_id that is empty or only white space is answered with status 400
      and the message that doc_id is required; with a usable doc_id, a
      question that is empty or only white space is answered with status
      400 and the message that the question is required. This holds in
      every deployment and for every content of the store, so neither the
      retriever nor the model was consulted. *)
Theorem chat_rejects_blank_fields (request : Backend.ChatRequest) :
  (truthy (strip (Backend.doc_id request)) = false ->
   Backend.post_chat ext pc request
   = Some {| Backend.status_code := 400;
             Backend.content_of := Backend.Detail "doc_id est requis" |}) /\
  (truthy (strip (Backend.doc_id request)) = true ->
   truthy (strip (Backend.question request)) = false ->
   Backend.post_chat ext pc request
   = Some {| Backend.status_code := 400;
             Backend.content_of := Backend.Detail "question est requise" |}).
Proof.
  unfold Backend.post_chat, Backend.chat_with_doc. split.
  - intros ->. by rewrite orb_true_r.
  - intros Hd Hq. rewrite Hd, (truthy_strip _ Hd), Hq. simpl.
    by rewrite orb_true_r.
Qed.

  (** The three kinds of response of the upload endpoint. *)
Lemma upload_status_cases f name_uuid doc_uuid pc' resp :
  Backend.post_upload_pdf ext pc f name_uuid doc_uuid = (pc', Some resp) ->
  (Backend.content_type f <> Some "application/pdf" /\
   Backend.status_code resp = 400 /\
   exists d, Backend.content_of resp = Backend.Detail d) \/
  (Backend.content_type f = Some "application/pdf" /\
   ((Backend.status_code resp = 200 /\
     exists r, Backend.content_of resp = Backend.Upload r) \/
    (Backend.status_code resp = 500 /\
     exists d, Backend.content_of resp = Backend.Detail d))).
Proof.
  unfold Backend.post_upload_pdf, Backend.upload_pdf.
  destruct (bool_decide _) eqn:Hct; simpl.
  - apply bool_decide_eq_true in Hct.
    destruct (Backend.upload_try _ _ _ _ _) as [pc1 [r|e|]]; simpl; [| |done].
    + intros [= _ <-]. right. split; [done|]. left. eauto.
    + intros [= _ <-]. right. split; [done|]. right. eauto.
  - apply bool_decide_eq_false in Hct.
    intros [= _ <-]. left. eauto.
Qed.

  (** X8. The chat handler lets no exception escape to the global
      handler: its two validations raise the 400 error themselves and its
      [except Exception] clause turns whatever the chain raises into a 500
      error, so every response to a chat request is a chat response with
      status 200 or a detail message with status 400 or 500, never the
      internal-error body. *)
Theorem chat_never_reaches_global_handler request resp :
  Backend.post_chat ext pc request = Some resp ->
  (Backend.status_code resp = 200 /\
   exists r, Backend.content_of resp = Backend.Chat r) \/
  ((Backend.status_code resp = 400 \/ Backend.status_code resp = 500) /\
   exists d, Backend.content_of resp = Backend.Detail d).
Proof.
  unfold Backend.post_chat, Backend.chat_with_doc.
  destruct (_ || _); [intros [= <-]; right; eauto|].
  destruct (_ || _); [intros [= <-]; right; eauto|].
  destruct (Backend.chat_try _ _ _) as [r|e|]; simpl; [| |done].
  - intros [= <-]. left. eauto.
  - intros [= <-]. right. eauto.
Qed.

  (** X9. The upload endpoint answers with status 400 exactly when the
      declared content type is not [application/pdf]; in that case the
      project is left as it was. *)
Theorem upload_400_iff_wrong_type f name_uuid doc_uuid pc' resp :
  Backend.post_upload_pdf ext pc f name_uuid doc_uuid = (pc', Some resp) ->
  (Backend.status_code resp = 400 <-> Backend.content_type f <> Some "application/pdf")
  /\ (Backend.status_code resp = 400 -> pc' = pc).
Proof.
  intros H.
  destruct (upload_status_cases _ _ _ _ _ H)
    as [(Hct & H400 & _)|(Hct & [[H200 _]|[H500 _]])].
  - split; [done|]. intros _. revert H.
    unfold Backend.post_upload_pdf, Backend.upload_pdf.
    rewrite bool_decide_eq_false_2 by done. simpl. by intros [= <- _].
  - rewrite H200. split; [split|]; done.
  - rewrite H500. split; [split|]; done.
Qed.

  (** X10. What a successful upload did: the file was declared as a PDF
      and was not empty; the id in the response is the one the ingestion
      drew (the endpoint never passes an id of its own), the file name is
      echoed, and the project gained records that all carry that id. *)
Theorem upload_pdf_success f name_uuid doc_uuid pc' r :
  Backend.upload_pdf ext pc f name_uuid doc_uuid = (pc', Ok r) ->
  Backend.content_type f = Some "application/pdf" /\
  Backend.file f <> EmptyString /\
  Backend.up_doc_id r = doc_uuid /\
  Backend.up_filename r = Backend.filename f /\
  exists chunks,
    vectors pc' = vectors pc ++ chunks /\
    Forall (fun c => metadata c !! "doc_id" = Some (VStr doc_uuid)) chunks.
Proof.
  unfold Backend.upload_pdf.
  destruct (bool_decide _) eqn:Hct; simpl; [|done].
  apply bool_decide_eq_true in Hct.
  unfold Backend.upload_try.
  destruct (Backend.file f) as [|c bytes] eqn:Hfile; simpl; [done|].
  destruct (ingest_pdf ext pc _ None doc_uuid) as [pc1 [d| |]] eqn:Hing;
    simpl; [|done..].
  intros [= <- <-]. simpl.
  destruct (ingest_pdf_Ok ext _ _ _ _ _ _ Hing) as (-> & pages & _ & Hv).
  repeat split; try done.
  exists (chunks_of ext doc_uuid pages). split; [done|]. apply chunks_of_doc_id.
Qed.

  (** X11. Whatever the outcome of an upload (accepted, refused, failed,
      failed half way through the writes), the records that were in the
      project stay as they were, in their order, and every record that was
      added carries the id drawn for this upload. *)
Theorem upload_only_appends_tagged f name_uuid doc_uuid :
  exists written,
    vectors (Backend.post_upload_pdf ext pc f name_uuid doc_uuid).1
    = vectors pc ++ written /\
    Forall (fun c => metadata c !! "doc_id" = Some (VStr doc_uuid)) written.
Proof.
  unfold Backend.post_upload_pdf, Backend.upload_pdf, Backend.upload_try.
  destruct (negb _); simpl.
  { exists []. by rewrite app_nil_r. }
  destruct (_ =? _)%nat; simpl.
  { exists []. by rewrite app_nil_r. }
  destruct (ingest_written ext pc (Backend.temp_path name_uuid f) None doc_uuid)
    as (written & Hv & Htag & _).
  exists written. split; [|done].
  destruct (ingest_pdf ext pc _ None doc_uuid) as [pc1 [d|e|]]; simpl in *; done.
Qed.

  (** X12. A PDF the loader rejects as corrupt: when the loader raises an
      error whose text holds [PDF] and, in any case, [corrupt], the upload
      is answered with status 500 and the fixed message of the corrupt
      file, and an existing index is left without any new record. *)
Theorem corrupt_pdf_is_reported f name_uuid doc_uuid e :
  Backend.content_type f = Some "application/pdf" ->
  Backend.file f <> EmptyString ->
  PINE_CONE_AVAILABLE ext = true ->
  list_indexes_error ext = None ->
  PINECONE_INDEX_NAME ext ∈ indexes pc ->
  load ext (Backend.temp_path name_uuid f) = Raise e ->
  contains "PDF" (str e) = true ->
  contains "corrupt" (lower (str e)) = true ->
  Backend.post_upload_pdf ext pc f name_uuid doc_uuid
  = (pc, Some {| Backend.status_code := 500;
                 Backend.content_of :=
                   Backend.Detail "Le fichier PDF semble corrompu ou invalide" |}).
Proof.
  intros Hct Hfile Hav Hlist Hidx Hload Hpdf Hcor.
  unfold Backend.post_upload_pdf, Backend.upload_pdf, Backend.upload_try.
  rewrite bool_decide_eq_true_2 by done. simpl.
  destruct (Backend.file f); [done|]. simpl.
  unfold ingest_pdf, _ensure_pinecone_index. rewrite Hav, Hlist. simpl.
  rewrite bool_decide_eq_true_2 by done. rewrite Hload. simpl.
  unfold Backend.upload_error_message. by rewrite Hpdf, Hcor.
Qed.

  (** X13. A chat request whose collaborators all work is answered: with
      usable doc_id and question, Pinecone available, the index in place,
      the query not failing and the model returning a text, the response
      has status 200, the model's text as answer and the citations of the
      five nearest records that carry the doc_id. *)
Theorem chat_succeeds request text :
  truthy (strip (Backend.doc_id request)) = true ->
  truthy (strip (Backend.question request)) = true ->
  PINE_CONE_AVAILABLE ext = true ->
  PINECONE_INDEX_NAME ext ∈ indexes pc ->
  query_error ext (Backend.question request) = None ->
  (let docs := take 5 (by_similarity ext (Backend.question request)
                         (List.filter
                            (matches (FEq "doc_id" (VStr (Backend.doc_id request))))
                            (vectors pc))) in
   llm ext DEFAULT_SYSTEM_PROMPT
       (human_message (_format_docs docs) (Backend.question request)) = Ok text ->
   Backend.post_chat ext pc request
   = Some {| Backend.status_code := 200;
             Backend.content_of :=
               Backend.Chat {| Backend.answer := text;
                               Backend.sources := map Backend.source_info docs |} |}).
Proof.
  intros Hd Hq Hav Hidx Hqe docs Hllm.
  unfold Backend.post_chat, Backend.chat_with_doc.
  rewrite Hd, (truthy_strip _ Hd), Hq, (truthy_strip _ Hq). simpl.
  unfold Backend.chat_try, build_qa_chain, get_retriever_for_doc.
  rewrite Hav. simpl. unfold invoke, retrieve.
  rewrite bool_decide_eq_true_2 by done. simpl. rewrite Hqe. simpl.
  fold docs. by rewrite Hllm.
Qed.

  (** X14. A failure of the model is reported as a missing document when
      its text happens to speak of an index: with a valid request and a
      working retrieval, if the completion call raises an error whose
      text, in lower case, holds [index], the response has status 500 and
      says that the document with this doc_id was not found, also when the
      text holds [timeout] as well. *)
Theorem model_error_reported_as_not_found request e :
  truthy (strip (Backend.doc_id request)) = true ->
  truthy (strip (Backend.question request)) = true ->
  PINE_CONE_AVAILABLE ext = true ->
  PINECONE_INDEX_NAME ext ∈ indexes pc ->
  query_error ext (Backend.question request) = None ->
  (forall prompt, llm ext DEFAULT_SYSTEM_PROMPT prompt = Raise e) ->
  contains "index" (lower (str e)) = true ->
  Backend.post_chat ext pc request
  = Some {| Backend.status_code := 500;
            Backend.content_of :=
              Backend.Detail
                ("Document avec doc_id '" +:+ Backend.doc_id request
                 +:+ "' non trouvé. Assurez-vous que le document a été correctement uploadé.") |}.
Proof.
  intros Hd Hq Hav Hidx Hqe Hllm Hindex.
  unfold Backend.post_chat, Backend.chat_with_doc.
  rewrite Hd, (truthy_strip _ Hd), Hq, (truthy_strip _ Hq). simpl.
  unfold Backend.chat_try, build_qa_chain, get_retriever_for_doc.
  rewrite Hav. simpl. unfold invoke, retrieve.
  rewrite bool_decide_eq_true_2 by done. simpl. rewrite Hqe. simpl.
  rewrite Hllm. simpl. unfold Backend.chat_error_detail. by rewrite Hindex.
Qed.

End BackendMore.

(** ** The temporary copy of an upload *)

Section TempPath.

Lemma after_last_free c s t :
  Backend.after_last c s = Some t -> Backend.after_last c t = None.
Proof.
  revert t; induction s as [|a s IH]; intros t; simpl; [done|].
  destruct (Backend.after_last c s) as [t'|] eqn:Hs.
  - intros [= <-]. by apply IH.
  - destruct (decide (a = c)); [|done]. by intros [= <-].
Qed.

Lemma after_last_suffix_free c d s t :
  Backend.after_last c s = None ->
  Backend.after_last d s = Some t ->
  Backend.after_last c t = None.
Proof.
  revert t; induction s as [|a s IH]; intros t; simpl; [done|].
  destruct (Backend.after_last c s) as [u|] eqn:Hs; [done|].
  intros _.
  destruct (Backend.after_last d s) as [t'|] eqn:Hd.
  - intros [= <-]. by apply IH.
  - destruct (decide (a = d)); [|done]. by intros [= <-].
Qed.

Lemma free_not_contained c s :
  Backend.after_last c s = None -> contains (String c EmptyString) s = false.
Proof.
  induction s as [|a s IH]; simpl; [done|].
  destruct (Backend.after_last c s) as [u|] eqn:Hs; [done|].
  destruct (decide (a = c)) as [->|Hne]; [done|]. intros _.
  rewrite decide_False by congruence. simpl. by apply IH.
Qed.

  (** X15. The client's file name cannot steer where the temporary copy is
      written: the extension taken from the name holds no path separator,
      so the copy's path is the upload directory, the drawn uuid and an
      extension without separator. *)
Theorem temp_path_stays_in_upload_dir (uuid4 : string) (f : Backend.UploadFile) :
  contains "/" (Backend.splitext_ext (Backend.filename f)) = false /\
  Backend.temp_path uuid4 f
  = "tmp_uploads/" +:+ uuid4 +:+ Backend.splitext_ext (Backend.filename f).
Proof.
  split; [|reflexivity].
  unfold Backend.splitext_ext.
  set (p := Backend.filename f).
  assert (Backend.after_last "/"%char (default p (Backend.after_last "/"%char p)) = None)
    as Hbase.
  { destruct (Backend.after_last "/"%char p) as [b|] eqn:Hp; simpl; [|done].
    by eapply after_last_free. }
  destruct (Backend.after_last "."%char _) as [e|] eqn:He; [|done].
  destruct (Backend.all_dots _); [done|].
  pose proof (after_last_suffix_free _ _ _ _ Hbase He) as Hfree.
  apply free_not_contained in Hfree.
  rewrite contains_unfold. simpl. exact Hfree.
Qed.

End TempPath.

(** ** The gateway's handlers *)

Section GatewayMore.
Import Gateway.
Context (backend : call -> upstream).

  (** The upload call for a file. *)
Lemma upload_pdf_valid session filename stream :
  truthy filename = true ->
  endswith ".pdf" (lower filename) = true ->
  upload_pdf backend session (Some (filename, stream))
  = let c := PostUpload (BACKEND_API_URL +:+ "/upload-pdf") filename stream
                        "application/pdf" in
    match backend c with
    | Failed e =>
        {| session_after := session; sent := upload_except e; calls := [c] |}
    | Responded status body =>
        {| session_after := (upload_answered session filename status body).1;
           sent := (upload_answered session filename status body).2;
           calls := [c] |}
    end.
Proof. intros Hname Hpdf. unfold upload_pdf. by rewrite Hname, Hpdf. Qed.

  (** The calls of [upload_pdf]: none, or the one upload call. *)
Lemma upload_calls session files c :
  c ∈ calls (upload_pdf backend session files) ->
  exists filename stream,
    files = Some (filename, stream) /\
    truthy filename = true /\
    endswith ".pdf" (lower filename) = true /\
    c = PostUpload (BACKEND_API_URL +:+ "/upload-pdf") filename stream
                   "application/pdf" /\
    calls (upload_pdf backend session files) = [c].
Proof.
  destruct files as [[filename stream]|]; [|by intros ?%elem_of_nil].
  destruct (truthy filename) eqn:Hname.
  - destruct (endswith ".pdf" (lower filename)) eqn:Hpdf.
    + rewrite upload_pdf_valid by done. simpl.
      destruct (backend _); simpl;
        intros ->%list_elem_of_singleton; by exists filename, stream.
    + unfold upload_pdf. rewrite Hname, Hpdf. simpl. by intros ?%elem_of_nil.
  - unfold upload_pdf. rewrite Hname. simpl. by intros ?%elem_of_nil.
Qed.

  (** X16. The gateway forwards an upload only for a file with a name that
      ends in [.pdf], in any case: every call [upload_pdf] makes is the one
      POST of that file to the backend's upload endpoint, declared as
      [application/pdf]; when no call is made the reply is a 400 JSON
      error and the session is untouched. *)
Theorem gateway_upload_validates session files :
  (forall c, c ∈ calls (upload_pdf backend session files) ->
     exists filename stream,
       files = Some (filename, stream) /\
       truthy filename = true /\
       endswith ".pdf" (lower filename) = true /\
       c = PostUpload (BACKEND_API_URL +:+ "/upload-pdf") filename stream
                      "application/pdf" /\
       calls (upload_pdf backend session files) = [c]) /\
  (calls (upload_pdf backend session files) = [] ->
   session_after (upload_pdf backend session files) = session /\
   exists msg, sent (upload_pdf backend session files) = Json 400 (error (JStr msg))).
Proof.
  split; [apply upload_calls|].
  destruct files as [[filename stream]|]; [|simpl; eauto].
  destruct (truthy filename) eqn:Hname.
  - destruct (endswith ".pdf" (lower filename)) eqn:Hpdf.
    + rewrite upload_pdf_valid by done. simpl. by destruct (backend _).
    + unfold upload_pdf. rewrite Hname, Hpdf. simpl. eauto.
  - unfold upload_pdf. rewrite Hname. simpl. eauto.
Qed.

  (** X17. What the gateway forwards is never refused by the answer
      service for its content type: for every upload call of the gateway,
      the upload endpoint given that file name, stream and declared type
      does not answer with status 400, whatever the deployment. *)
Theorem gateway_upload_passes_type_check
    session files url filename stream mime ext pc name_uuid doc_uuid pc' resp :
  PostUpload url filename stream mime ∈ calls (upload_pdf backend session files) ->
  Backend.post_upload_pdf ext pc
    {| Backend.content_type := Some mime;
       Backend.filename := filename;
       Backend.file := stream |} name_uuid doc_uuid = (pc', Some resp) ->
  Backend.status_code resp <> 400.
Proof.
  intros Hc Hresp.
  destruct (upload_calls session files _ Hc) as (fn & st & _ & _ & _ & Heq & _).
  injection Heq as _ _ _ ->.
  destruct (upload_status_cases _ _ _ _ _ _ _ Hresp)
    as [(Hct & _)|(_ & [[-> _]|[-> _]])]; done.
Qed.

  (** X18. Upload then chat: when the backend answers an upload with
      status 200 and an object holding [doc_id] and [message], the gateway
      replies 200 with these two and the file name, stores the doc_id and
      the file name in the session, and a chat that follows with that
      session sends the stored doc_id to the backend, whatever backend it
      then meets. *)
Theorem gateway_upload_then_chat
    session filename stream fields d m now (backend' : call -> upstream) q :
  truthy filename = true ->
  endswith ".pdf" (lower filename) = true ->
  backend (PostUpload (BACKEND_API_URL +:+ "/upload-pdf") filename stream
                      "application/pdf")
  = Responded 200 (inr (JObj fields)) ->
  assoc "doc_id" fields = Some d ->
  assoc "message" fields = Some m ->
  truthy (strip q) = true ->
  let o := upload_pdf backend session (Some (filename, stream)) in
  sent o = Json 200 (JObj [("success", JBool true); ("doc_id", d);
                           ("filename", JStr filename); ("message", m)]) /\
  session_after o !! "doc_id" = Some d /\
  session_after o !! "filename" = Some (JStr filename) /\
  calls (chat backend' now (session_after o) (JObj [("question", JStr q)]))
  = [chat_call d (strip q) (JArr [])].
Proof.
  intros Hname Hpdf Hback Hd Hm Hq o. subst o.
  rewrite upload_pdf_valid by done. simpl. rewrite Hback. simpl.
  unfold upload_answered. simpl. rewrite Hd, Hm. simpl.
  split; [done|].
  split; [by rewrite lookup_insert_ne, lookup_insert_eq by done|].
  split; [by rewrite lookup_insert_eq|].
  unfold chat. rewrite lookup_insert_ne, lookup_insert_eq by done. simpl.
  by rewrite Hq.
Qed.

  (** X19. The session changes only when an upload is accepted: after
      [upload_pdf] the session is the one before, unless the backend
      answered the upload call with status 200 and an object holding a
      [doc_id], in which case that doc_id and the file name are stored.
      A refused, failed or invalid upload leaves the active document in
      place. *)
Theorem gateway_session_changes_only_on_accept session files :
  session_after (upload_pdf backend session files) = session \/
  exists filename stream fields d,
    files = Some (filename, stream) /\
    backend (PostUpload (BACKEND_API_URL +:+ "/upload-pdf") filename stream
                        "application/pdf")
    = Responded 200 (inr (JObj fields)) /\
    assoc "doc_id" fields = Some d /\
    session_after (upload_pdf backend session files)
    = <["filename" := JStr filename]> (<["doc_id" := d]> session).
Proof.
  destruct files as [[filename stream]|]; [|by left].
  destruct (truthy filename) eqn:Hname;
    [|left; unfold upload_pdf; by rewrite Hname].
  destruct (endswith ".pdf" (lower filename)) eqn:Hpdf;
    [|left; unfold upload_pdf; by rewrite Hname, Hpdf].
  rewrite upload_pdf_valid by done. simpl.
  destruct (backend _) as [status body|e] eqn:Hback; [|by left].
  simpl. unfold upload_answered.
  destruct (status =? 200) eqn:Hst; [|by left].
  apply Z.eqb_eq in Hst as ->.
  destruct body as [msg|data]; simpl; [by left|].
  destruct data as [| | | | |fields]; simpl; try by left.
  destruct (assoc "doc_id" fields) as [d|] eqn:Hd; simpl; [|by left].
  right. by exists filename, stream, fields, d.
Qed.

  (** X20. The session is written before the reply is built: when the
      backend answers an upload with status 200 and an object that holds a
      [doc_id] but no [message], the gateway replies with status 500 and
      the error of the missing key, and the session nevertheless holds the
      new doc_id and file name. *)
Theorem gateway_upload_without_message session filename stream fields d :
  truthy filename = true ->
  endswith ".pdf" (lower filename) = true ->
  backend (PostUpload (BACKEND_API_URL +:+ "/upload-pdf") filename stream
                      "application/pdf")
  = Responded 200 (inr (JObj fields)) ->
  assoc "doc_id" fields = Some d ->
  assoc "message" fields = None ->
  let o := upload_pdf backend session (Some (filename, stream)) in
  sent o = Json 500 (error (JStr "Erreur: 'message'")) /\
  session_after o !! "doc_id" = Some d /\
  session_after o !! "filename" = Some (JStr filename).
Proof.
  intros Hname Hpdf Hback Hd Hm o. subst o.
  rewrite upload_pdf_valid by done. simpl. rewrite Hback. simpl.
  unfold upload_answered. simpl. rewrite Hd, Hm. simpl.
  split; [done|].
  split; [by rewrite lookup_insert_ne, lookup_insert_eq by done|].
  by rewrite lookup_insert_eq.
Qed.

  (** The chat handler on an object with a usable question. *)
Lemma chat_valid now session fields d q :
  session !! "doc_id" = Some d ->
  assoc "question" fields = Some (JStr q) ->
  truthy (strip q) = true ->
  chat backend now session (JObj fields)
  = let c := chat_call d (strip q) (default (JArr []) (assoc "history" fields)) in
    {| session_after := session;
       sent := match backend c with
               | Responded status body => chat_answered now status body
               | Failed e => chat_except e
               end;
       calls := [c] |}.
Proof.
  intros Hd Hq Hs. unfold chat. rewrite Hd. simpl. rewrite Hq. simpl.
  by rewrite Hs.
Qed.

  (** X21. What the gateway's chat sends: for a session with an active
      document and a body whose question is a string with something other
      than white space, the one call is the POST to the backend's chat
      endpoint with timeout 30 whose payload holds the session's doc_id,
      the question stripped of surrounding white space and the body's
      history (the empty list when the body has none). Any doc_id in the
      body is ignored, and the session is left as it was. *)
Theorem gateway_chat_forwards_session_document now session fields d q :
  session !! "doc_id" = Some d ->
  assoc "question" fields = Some (JStr q) ->
  truthy (strip q) = true ->
  calls (chat backend now session (JObj fields))
  = [PostChat (BACKEND_API_URL +:+ "/chat")
       (JObj [("doc_id", d);
              ("question", JStr (strip q));
              ("history", default (JArr []) (assoc "history" fields))])
       30] /\
  session_after (chat backend now session (JObj fields)) = session.
Proof. intros Hd Hq Hs. by rewrite (chat_valid _ _ _ _ _ Hd Hq Hs). Qed.

  (** X22. A chat whose question is absent, empty or only white space is
      refused by the gateway itself: with an active document, the reply is
      status 400 with the error that the question cannot be empty, and no
      call is made to the backend. *)
Theorem gateway_chat_rejects_blank_question now session fields d :
  session !! "doc_id" = Some d ->
  (assoc "question" fields = None \/
   exists q, assoc "question" fields = Some (JStr q) /\ truthy (strip q) = false) ->
  chat backend now session (JObj fields)
  = {| session_after := session;
       sent := Json 400 (error (JStr "La question ne peut pas être vide"));
       calls := [] |}.
Proof.
  intros Hd Hq. unfold chat. rewrite Hd. simpl.
  destruct Hq as [->|(q & -> & Hs)]; simpl; [done|]. by rewrite Hs.
Qed.

Lemma chat_answered_json now status body :
  exists st payload,
    chat_answered now status body = Json st payload /\ (st = 200 \/ st = 500).
Proof.
  unfold chat_answered, except_Exception, response_json, getitem, get,
    mbind, attempt_bind.
  repeat case_match; simplify_eq; eauto.
Qed.

Lemma chat_except_json e :
  exists st payload, chat_except e = Json st payload /\ (st = 408 \/ st = 500).
Proof.
  unfold chat_except, except_Exception. repeat case_match; eauto.
Qed.

  (** X23. The gateway's chat never fails on what the backend does: for a
      body that is an object whose question is absent or a string, the
      reply is always a JSON body with status 200, 400, 408 or 500,
      whatever the backend answers or raises (a body that is not JSON, a
      missing key, any status, any exception), and the session is left as
      it was. *)
Theorem gateway_chat_always_replies_json now session fields :
  (assoc "question" fields = None \/ exists q, assoc "question" fields = Some (JStr q)) ->
  session_after (chat backend now session (JObj fields)) = session /\
  exists st payload,
    sent (chat backend now session (JObj fields)) = Json st payload /\
    (st = 200 \/ st = 400 \/ st = 408 \/ st = 500).
Proof.
  intros Hq. unfold chat.
  destruct (session !! "doc_id") as [d|]; simpl; [|eauto 10].
  destruct Hq as [->|(q & ->)]; simpl; [eauto 10|].
  destruct (truthy (strip q)); simpl; [|eauto 10].
  split; [done|].
  destruct (backend _) as [status body|e].
  - destruct (chat_answered_json now status body) as (st & payload & -> & [->| ->]);
      eauto 10.
  - destruct (chat_except_json e) as (st & payload & -> & [->| ->]); eauto 10.
Qed.

  (** X24. A chat body that is not an object, or whose question is not a
      string, is not handled: with an active document the handler raises
      outside its [try] block, the client gets the framework's 500 page
      instead of a JSON error, and no call is made to the backend. *)
Theorem gateway_chat_unhandled_body now session data d :
  session !! "doc_id" = Some d ->
  ((forall fields, data <> JObj fields) \/
   exists fields v, data = JObj fields /\ assoc "question" fields = Some v /\
                    forall q, v <> JStr q) ->
  chat backend now session data
  = {| session_after := session; sent := Unhandled 500; calls := [] |}.
Proof.
  intros Hd Hbad. unfold chat. rewrite Hd.
  destruct Hbad as [Hno|(fields & v & -> & Hv & Hstr)].
  - destruct data; simpl; try done. by destruct (Hno fields).
  - simpl. rewrite Hv. simpl. destruct v; try done. by destruct (Hstr s).
Qed.

  (** X25. Every error status of the backend becomes status 500 at the
      gateway: when the backend answers the chat call with a status other
      than 200 and a JSON object, the reply is 500 with the object's
      [detail] as the error, or the fixed generation error when the object
      has no [detail]. *)
Theorem gateway_chat_relays_detail now session fields d q status body :
  session !! "doc_id" = Some d ->
  assoc "question" fields = Some (JStr q) ->
  truthy (strip q) = true ->
  backend (chat_call d (strip q) (default (JArr []) (assoc "history" fields)))
  = Responded status (inr (JObj body)) ->
  status <> 200 ->
  sent (chat backend now session (JObj fields))
  = Json 500 (error (default (JStr "Erreur lors de la génération")
                             (assoc "detail" body))).
Proof.
  intros Hd Hq Hs Hback Hst.
  rewrite (chat_valid _ _ _ _ _ Hd Hq Hs). simpl. rewrite Hback.
  unfold chat_answered. apply Z.eqb_neq in Hst. by rewrite Hst.
Qed.

  (** X26. An answer of the backend reaches the client unchanged: when
      the backend answers the chat call with status 200 and an object
      holding [answer], the reply is 200 with that answer, the object's
      [sources] (the empty list when it has none) and the clock reading;
      when the object has no [answer] the reply is 500 with the error of
      the missing key. *)
Theorem gateway_chat_relays_answer now session fields d q body :
  session !! "doc_id" = Some d ->
  assoc "question" fields = Some (JStr q) ->
  truthy (strip q) = true ->
  backend (chat_call d (strip q) (default (JArr []) (assoc "history" fields)))
  = Responded 200 (inr (JObj body)) ->
  sent (chat backend now session (JObj fields))
  = match assoc "answer" body with
    | Some a =>
        Json 200 (JObj [("success", JBool true);
                        ("answer", a);
                        ("sources", default (JArr []) (assoc "sources" body));
                        ("timestamp", JStr now)])
    | None => Json 500 (error (JStr "Erreur: 'answer'"))
    end.
Proof.
  intros Hd Hq Hs Hback.
  rewrite (chat_valid _ _ _ _ _ Hd Hq Hs). simpl. rewrite Hback.
  unfold chat_answered. simpl. by destruct (assoc "answer" body).
Qed.

End GatewayMore.

(** ** The configuration *)

Section ConfigMore.
Import Config.
Context {Temperature : Type}.
Context (int : string -> result Z) (float : string -> result Temperature).

Lemma filter_nil_inv {A} (f : A -> bool) (l : list A) :
  List.filter f l = [] -> Forall (fun x => f x = false) l.
Proof.
  induction l as [|x l IH]; simpl; [constructor|].
  destruct (f x) eqn:Hx; [done|]. intros H. constructor; auto.
Qed.

Lemma missing_vars_filter (env : gmap string string) :
  missing_vars env = List.filter (fun name => falsy (env !! name)) required_names.
Proof.
  unfold missing_vars, required_vars.
  induction required_names as [|name names IH]; simpl; [done|].
  destruct (falsy (env !! name)); simpl; by rewrite IH.
Qed.

Lemma falsy_false (value : option string) :
  falsy value = false <-> exists v, value = Some v /\ v <> EmptyString.
Proof.
  destruct value as [[|c v]|]; simpl; split; try done.
  - intros (v & [= <-] & Hv). done.
  - intros _. by eexists.
  - by intros (v & [=] & _).
Qed.

Lemma missing_vars_nil (env : gmap string string) :
  missing_vars env = [] <->
  forall name, name ∈ required_names ->
               exists v, env !! name = Some v /\ v <> EmptyString.
Proof.
  rewrite missing_vars_filter. split.
  - intros H%filter_nil_inv name Hname.
    apply falsy_false. by apply (proj1 (Forall_forall _ _) H).
  - intros H. apply filter_none, Forall_forall. intros name Hname.
    apply falsy_false. by apply H.
Qed.

  (** X27. The configuration loads exactly when the four required
      variables are set to non-empty values (the two numbers being
      readable): then the settings hold the values of the environment, the
      parsed dimension, and the defaults of the API version, the embedding
      deployment and the index name for the variables that are not set. *)
Theorem config_loads_iff_required_set (env : gmap string string) dim temperature :
  int (default "1536" (env !! "PINECONE_DIMENSION")) = Ok dim ->
  float (default "0.2" (env !! "OPENAI_TEMPERATURE")) = Ok temperature ->
  ((forall name, name ∈ required_names ->
                 exists v, env !! name = Some v /\ v <> EmptyString)
   <-> exists cfg, load int float env = Ok cfg) /\
  (forall cfg, load int float env = Ok cfg ->
     AZURE_OPENAI_KEY cfg = env !! "AZURE_OPENAI_KEY" /\
     AZURE_OPENAI_ENDPOINT cfg = env !! "AZURE_OPENAI_ENDPOINT" /\
     AZURE_OPENAI_DEPLOYMENT cfg = env !! "AZURE_OPENAI_DEPLOYMENT" /\
     PINECONE_API_KEY cfg = env !! "PINECONE_API_KEY" /\
     PINECONE_DIMENSION cfg = dim /\
     AZURE_OPENAI_VERSION cfg = default "2024-02-01" (env !! "AZURE_OPENAI_VERSION") /\
     AZURE_OPENAI_EMBEDDING_DEPLOYMENT cfg
     = default "text-embedding-ada-002" (env !! "AZURE_OPENAI_EMBEDDING_DEPLOYMENT") /\
     PINECONE_INDEX_NAME cfg
     = default "azure-openai-rag-index" (env !! "PINECONE_INDEX_NAME")).
Proof.
  intros Hint Hfloat. unfold load. rewrite Hint, Hfloat. simpl.
  destruct (missing_vars env) as [|name missing] eqn:Hmiss; simpl.
  - split.
    + split; [eauto|]. intros _. by apply missing_vars_nil.
    + intros cfg [= <-]. by simpl.
  - split; [|done]. split; [|by intros [cfg ?]].
    intros H%missing_vars_nil. congruence.
Qed.

  (** X28. The configuration error names what is missing: when the two
      numbers are readable and some required variable is unset or empty,
      loading raises the error whose message lists, separated by commas
      and in the fixed order of the four names, exactly the required
      variables that are unset or empty. *)
Theorem config_error_names_missing (env : gmap string string) dim temperature :
  int (default "1536" (env !! "PINECONE_DIMENSION")) = Ok dim ->
  float (default "0.2" (env !! "OPENAI_TEMPERATURE")) = Ok temperature ->
  missing_vars env <> [] ->
  load int float env
  = Raise (Error ("Configuration manquante: " +:+ join ", " (missing_vars env)
                  +:+ ". Veuillez vérifier votre fichier .env")) /\
  missing_vars env
  = List.filter (fun name => falsy (env !! name)) required_names /\
  (forall name, name ∈ missing_vars env <->
     name ∈ required_names /\
     (env !! name = None \/ env !! name = Some EmptyString)).
Proof.
  intros Hint Hfloat Hmiss. unfold load. rewrite Hint, Hfloat. simpl.
  split; [|split].
  - by destruct (missing_vars env).
  - apply missing_vars_filter.
  - intros name. rewrite missing_vars_filter, !list_elem_of_In, filter_In.
    split; intros [Hin Hf]; (split; [done|]).
    + destruct (env !! name) as [[|c v]|]; simpl in Hf; auto. done.
    + by destruct Hf as [-> | ->].
Qed.

  (** X29. The numbers are read before the required variables are
      checked: a dimension that [int] rejects, or else a temperature that
      [float] rejects, makes loading raise that error, whether or not the
      required variables are set. *)
Theorem config_number_error_comes_first (env : gmap string string) e :
  (int (default "1536" (env !! "PINECONE_DIMENSION")) = Raise e ->
   load int float env = Raise e) /\
  (forall dim,
      int (default "1536" (env !! "PINECONE_DIMENSION")) = Ok dim ->
      float (default "0.2" (env !! "OPENAI_TEMPERATURE")) = Raise e ->
      load int float env = Raise e).
Proof.
  unfold load. split.
  - by intros ->.
  - by intros dim -> ->.
Qed.

End ConfigMore.

(** ** The further properties on the sample deployments *)

Lemma ensure_index_idempotent_witness :
  Pipeline.PINECONE_INDEX_NAME Samples.working ∈ Pipeline.indexes Samples.empty_index /\
  Pipeline.vectors Samples.empty_index = Pipeline.vectors Samples.new_project /\
  Pipeline._ensure_pinecone_index Samples.working Samples.empty_index
  = (Samples.empty_index, Ok tt).
Proof.
  apply (ensure_index_idempotent Samples.working Samples.new_project
           Samples.empty_index).
  reflexivity.
Defined.

Lemma ingest_pdf_succeeds_witness :
  (Pipeline.ingest_pdf Samples.working Samples.new_project
     "tmp_uploads/u0.pdf" None "d1").2 = Ok "d1" /\
  Pipeline.vectors (Pipeline.ingest_pdf Samples.working Samples.new_project
                      "tmp_uploads/u0.pdf" None "d1").1
  = Pipeline.vectors Samples.new_project
    ++ Pipeline.chunks_of Samples.working "d1"
         [Samples.pdf_page "tmp_uploads/u0.pdf" 0 "Introduction.";
          Samples.pdf_page "tmp_uploads/u0.pdf" 1 (Samples.replicate_str 251 "a"%char);
          Samples.pdf_page "tmp_uploads/u0.pdf" 2 "Conclusion."] /\
  Pipeline.PINECONE_INDEX_NAME Samples.working
  ∈ Pipeline.indexes (Pipeline.ingest_pdf Samples.working Samples.new_project
                        "tmp_uploads/u0.pdf" None "d1").1.
Proof.
  apply (ingest_pdf_succeeds Samples.working Samples.new_project
           "tmp_uploads/u0.pdf" None "d1").
  - reflexivity.
  - reflexivity.
  - right. exists 1%nat. reflexivity.
  - reflexivity.
  - reflexivity.
Defined.

Lemma ingest_then_retrieve_witness :
  exists pages r,
    Pipeline.load Samples.working "tmp_uploads/u0.pdf" = Ok pages /\
    Pipeline.get_retriever_for_doc Samples.working "d1" = Ok r /\
    Pipeline.retrieve Samples.working Samples.after_d1 r "What is the summary?"
    = Ok (take 5 (Pipeline.by_similarity Samples.working "What is the summary?"
                    (Pipeline.chunks_of Samples.working "d1" pages))) /\
    length (take 5 (Pipeline.by_similarity Samples.working "What is the summary?"
                      (Pipeline.chunks_of Samples.working "d1" pages)))
    = Nat.min 5 (length (Pipeline.chunks_of Samples.working "d1" pages)).
Proof.
  apply (ingest_then_retrieve Samples.working Samples.empty_index Samples.after_d1
           "tmp_uploads/u0.pdf" None "d1" "d1" "What is the summary?").
  - vm_compute. reflexivity.
  - reflexivity.
  - constructor.
Defined.

Lemma ingest_leaves_other_documents_witness :
  Pipeline.retrieve Samples.working
    (Pipeline.ingest_pdf Samples.working Samples.after_d1
       "tmp_uploads/u1.pdf" None "d2").1
    {| Pipeline.k := 5; Pipeline.search_filter := Pipeline.FEq "doc_id" (Pipeline.VStr "d1") |}
    "What is the summary?"
  = Pipeline.retrieve Samples.working Samples.after_d1
      {| Pipeline.k := 5; Pipeline.search_filter := Pipeline.FEq "doc_id" (Pipeline.VStr "d1") |}
      "What is the summary?".
Proof.
  apply (ingest_leaves_other_documents Samples.working Samples.after_d1
           "tmp_uploads/u1.pdf" None "d2" "d1").
  - vm_compute. apply list_elem_of_here.
  - vm_compute. discriminate.
  - reflexivity.
Defined.

Lemma chat_rejects_blank_fields_witness :
  Backend.post_chat Samples.working Samples.after_d1
    {| Backend.doc_id := Samples.nbsp; Backend.question := EmptyString;
       Backend.history := None |}
  = Some {| Backend.status_code := 400;
            Backend.content_of := Backend.Detail "doc_id est requis" |}
  /\ Backend.post_chat Samples.working Samples.after_d1
       {| Backend.doc_id := "d1"; Backend.question := " " +:+ Samples.em_space;
          Backend.history := None |}
     = Some {| Backend.status_code := 400;
               Backend.content_of := Backend.Detail "question est requise" |}.
Proof.
  split.
  - apply (proj1 (chat_rejects_blank_fields Samples.working Samples.after_d1
                    {| Backend.doc_id := Samples.nbsp;
                       Backend.question := EmptyString;
                       Backend.history := None |})).
    reflexivity.
  - apply (proj2 (chat_rejects_blank_fields Samples.working Samples.after_d1
                    {| Backend.doc_id := "d1";
                       Backend.question := " " +:+ Samples.em_space;
                       Backend.history := None |})).
    + reflexivity.
    + reflexivity.
Defined.

Lemma chat_never_reaches_global_handler_witness :
  ((500 = 200 /\
    exists r,
      Backend.Detail
        ("Document avec doc_id '" +:+ "d1"
         +:+ "' non trouvé. Assurez-vous que le document a été correctement uploadé.")
      = Backend.Chat r) \/
   ((500 = 400 \/ 500 = 500) /\
    exists d,
      Backend.Detail
        ("Document avec doc_id '" +:+ "d1"
         +:+ "' non trouvé. Assurez-vous que le document a été correctement uploadé.")
      = Backend.Detail d))
  /\
  ((200 = 200 /\
    exists r,
      Backend.Chat {| Backend.answer := "The report has three parts.";
                      Backend.sources := [] |} = Backend.Chat r) \/
   ((200 = 400 \/ 200 = 500) /\
    exists d,
      Backend.Chat {| Backend.answer := "The report has three parts.";
                      Backend.sources := [] |} = Backend.Detail d)).
Proof.
  split.
  - apply (chat_never_reaches_global_handler Samples.model_fails Samples.after_d1
             (Samples.ask "d1")
             {| Backend.status_code := 500;
                Backend.content_of :=
                  Backend.Detail
                    ("Document avec doc_id '" +:+ "d1"
                     +:+ "' non trouvé. Assurez-vous que le document a été correctement uploadé.") |}).
    vm_compute. reflexivity.
  - apply (chat_never_reaches_global_handler Samples.working Samples.empty_index
             (Samples.ask "d1")
             {| Backend.status_code := 200;
                Backend.content_of :=
                  Backend.Chat {| Backend.answer := "The report has three parts.";
                                  Backend.sources := [] |} |}).
    vm_compute. reflexivity.
Defined.

Lemma upload_400_iff_wrong_type_witness :
  (400 = 400 <-> Backend.content_type Samples.text_upload <> Some "application/pdf")
  /\ (400 = 400 -> Samples.after_d1 = Samples.after_d1).
Proof.
  apply (upload_400_iff_wrong_type Samples.working Samples.after_d1
           Samples.text_upload "u0" "d2" Samples.after_d1
           {| Backend.status_code := 400;
              Backend.content_of :=
                Backend.Detail "Le fichier doit être un PDF (application/pdf)" |}).
  reflexivity.
Defined.

Lemma upload_pdf_success_witness :
  Backend.content_type (Samples.pdf_upload "%PDF-1.7") = Some "application/pdf" /\
  Backend.file (Samples.pdf_upload "%PDF-1.7") <> EmptyString /\
  "d1" = "d1" /\
  "report.pdf" = Backend.filename (Samples.pdf_upload "%PDF-1.7") /\
  exists chunks,
    Pipeline.vectors Samples.after_d1
    = Pipeline.vectors Samples.empty_index ++ chunks /\
    Forall (fun c => Pipeline.metadata c !! "doc_id" = Some (Pipeline.VStr "d1")) chunks.
Proof.
  apply (upload_pdf_success Samples.working Samples.empty_index
           (Samples.pdf_upload "%PDF-1.7") "u0" "d1" Samples.after_d1
           {| Backend.up_doc_id := "d1";
              Backend.up_message :=
                "PDF traité et ingéré avec succès dans Azure OpenAI + Pinecone";
              Backend.up_filename := "report.pdf" |}).
  vm_compute. reflexivity.
Defined.

Lemma corrupt_pdf_is_reported_witness :
  Backend.post_upload_pdf Samples.corrupt_pdf Samples.empty_index
    (Samples.pdf_upload "%PDF-1.7") "u0" "d1"
  = (Samples.empty_index,
     Some {| Backend.status_code := 500;
             Backend.content_of :=
               Backend.Detail "Le fichier PDF semble corrompu ou invalide" |}).
Proof.
  apply (corrupt_pdf_is_reported Samples.corrupt_pdf Samples.empty_index
           (Samples.pdf_upload "%PDF-1.7") "u0" "d1"
           (Error "PDF stream is corrupted")).
  - reflexivity.
  - discriminate.
  - reflexivity.
  - reflexivity.
  - apply list_elem_of_here.
  - reflexivity.
  - reflexivity.
  - reflexivity.
Defined.

Lemma chat_succeeds_witness :
  Backend.post_chat Samples.working Samples.after_d1 (Samples.ask "d1")
  = Some {| Backend.status_code := 200;
            Backend.content_of :=
              Backend.Chat
                {| Backend.answer := "The report has three parts.";
                   Backend.sources :=
                     map Backend.source_info
                       (take 5 (Pipeline.by_similarity Samples.working
                                  "What is the summary?"
                                  (List.filter
                                     (Pipeline.matches
                                        (Pipeline.FEq "doc_id" (Pipeline.VStr "d1")))
                                     (Pipeline.vectors Samples.after_d1)))) |} |}.
Proof.
  apply (chat_succeeds Samples.working Samples.after_d1 (Samples.ask "d1")
           "The report has three parts.").
  - reflexivity.
  - reflexivity.
  - reflexivity.
  - vm_compute. apply list_elem_of_here.
  - reflexivity.
  - reflexivity.
Defined.

Lemma model_error_reported_as_not_found_witness :
  Backend.post_chat Samples.model_fails Samples.after_d1 (Samples.ask "d1")
  = Some {| Backend.status_code := 500;
            Backend.content_of :=
              Backend.Detail
                ("Document avec doc_id '" +:+ "d1"
                 +:+ "' non trouvé. Assurez-vous que le document a été correctement uploadé.") |}.
Proof.
  apply (model_error_reported_as_not_found Samples.model_fails Samples.after_d1
           (Samples.ask "d1") (Error "Timeout: list index out of range")).
  - reflexivity.
  - reflexivity.
  - reflexivity.
  - vm_compute. apply list_elem_of_here.
  - reflexivity.
  - intros prompt. reflexivity.
  - reflexivity.
Defined.

Lemma gateway_upload_validates_witness :
  (exists filename stream,
      Some ("Report.PDF", "%PDF-1.7") = Some (filename, stream) /\
      truthy filename = true /\
      Gateway.endswith ".pdf" (lower filename) = true /\
      Gateway.PostUpload (Gateway.BACKEND_API_URL +:+ "/upload-pdf") "Report.PDF"
        "%PDF-1.7" "application/pdf"
      = Gateway.PostUpload (Gateway.BACKEND_API_URL +:+ "/upload-pdf") filename
          stream "application/pdf" /\
      Gateway.calls (Gateway.upload_pdf Samples.backend_ingests ∅
                       (Some ("Report.PDF", "%PDF-1.7")))
      = [Gateway.PostUpload (Gateway.BACKEND_API_URL +:+ "/upload-pdf") "Report.PDF"
           "%PDF-1.7" "application/pdf"])
  /\ (Gateway.session_after
        (Gateway.upload_pdf Samples.backend_ingests Samples.session_d1
           (Some ("notes.txt", "hello")))
      = Samples.session_d1 /\
      exists msg,
        Gateway.sent (Gateway.upload_pdf Samples.backend_ingests Samples.session_d1
                        (Some ("notes.txt", "hello")))
        = Gateway.Json 400 (Gateway.error (Gateway.JStr msg))).
Proof.
  split.
  - apply (proj1 (gateway_upload_validates Samples.backend_ingests ∅
                    (Some ("Report.PDF", "%PDF-1.7")))).
    vm_compute. apply list_elem_of_here.
  - apply (proj2 (gateway_upload_validates Samples.backend_ingests Samples.session_d1
                    (Some ("notes.txt", "hello")))).
    reflexivity.
Defined.

Lemma gateway_upload_passes_type_check_witness :
  Backend.status_code
    {| Backend.status_code := 500;
       Backend.content_of :=
         Backend.Detail
           "Erreur lors du traitement du PDF: 400: Le fichier PDF est vide" |}
  <> 400.
Proof.
  apply (gateway_upload_passes_type_check Samples.backend_ingests ∅
           (Some ("report.pdf", EmptyString))
           (Gateway.BACKEND_API_URL +:+ "/upload-pdf") "report.pdf" EmptyString
           "application/pdf" Samples.working Samples.empty_index "u0" "d1"
           Samples.empty_index).
  - vm_compute. apply list_elem_of_here.
  - reflexivity.
Defined.

Lemma gateway_upload_then_chat_witness :
  let o := Gateway.upload_pdf Samples.backend_ingests ∅
             (Some ("report.pdf", "%PDF-1.7")) in
  Gateway.sent o
  = Gateway.Json 200
      (Gateway.JObj [("success", Gateway.JBool true);
                     ("doc_id", Gateway.JStr "d1");
                     ("filename", Gateway.JStr "report.pdf");
                     ("message", Gateway.JStr "PDF traité")]) /\
  Gateway.session_after o !! "doc_id" = Some (Gateway.JStr "d1") /\
  Gateway.session_after o !! "filename" = Some (Gateway.JStr "report.pdf") /\
  Gateway.calls (Gateway.chat Samples.backend_answers "12:00:00"
                   (Gateway.session_after o)
                   (Gateway.JObj [("question",
                                   Gateway.JStr (Samples.nbsp +:+ "Why? "))]))
  = [Gateway.chat_call (Gateway.JStr "d1") (strip (Samples.nbsp +:+ "Why? "))
       (Gateway.JArr [])].
Proof.
  apply (gateway_upload_then_chat Samples.backend_ingests ∅ "report.pdf" "%PDF-1.7"
           [("doc_id", Gateway.JStr "d1");
            ("message", Gateway.JStr "PDF traité");
            ("filename", Gateway.JStr "report.pdf")]
           (Gateway.JStr "d1") (Gateway.JStr "PDF traité") "12:00:00"
           Samples.backend_answers (Samples.nbsp +:+ "Why? ")); reflexivity.
Defined.

Lemma gateway_upload_without_message_witness :
  let o := Gateway.upload_pdf Samples.backend_forgets_message Samples.session_d1
             (Some ("other.pdf", "%PDF-1.7")) in
  Gateway.sent o
  = Gateway.Json 500 (Gateway.error (Gateway.JStr "Erreur: 'message'")) /\
  Gateway.session_after o !! "doc_id" = Some (Gateway.JStr "d9") /\
  Gateway.session_after o !! "filename" = Some (Gateway.JStr "other.pdf").
Proof.
  apply (gateway_upload_without_message Samples.backend_forgets_message
           Samples.session_d1 "other.pdf" "%PDF-1.7"
           [("doc_id", Gateway.JStr "d9")] (Gateway.JStr "d9")); reflexivity.
Defined.

Lemma gateway_chat_forwards_session_document_witness :
  Gateway.calls
    (Gateway.chat Samples.backend_answers "12:00:00" Samples.session_d1
       (Gateway.JObj [("doc_id", Gateway.JStr "d2");
                      ("question",
                       Gateway.JStr (Samples.nbsp +:+ "Why?" +:+ Samples.em_space))]))
  = [Gateway.PostChat (Gateway.BACKEND_API_URL +:+ "/chat")
       (Gateway.JObj
          [("doc_id", Gateway.JStr "d1");
           ("question",
            Gateway.JStr (strip (Samples.nbsp +:+ "Why?" +:+ Samples.em_space)));
           ("history",
            default (Gateway.JArr [])
              (Gateway.assoc "history"
                 [("doc_id", Gateway.JStr "d2");
                  ("question",
                   Gateway.JStr (Samples.nbsp +:+ "Why?" +:+ Samples.em_space))]))])
       30] /\
  Gateway.session_after
    (Gateway.chat Samples.backend_answers "12:00:00" Samples.session_d1
       (Gateway.JObj [("doc_id", Gateway.JStr "d2");
                      ("question",
                       Gateway.JStr (Samples.nbsp +:+ "Why?" +:+ Samples.em_space))]))
  = Samples.session_d1.
Proof.
  apply (gateway_chat_forwards_session_document Samples.backend_answers "12:00:00"
           Samples.session_d1
           [("doc_id", Gateway.JStr "d2");
            ("question", Gateway.JStr (Samples.nbsp +:+ "Why?" +:+ Samples.em_space))]
           (Gateway.JStr "d1") (Samples.nbsp +:+ "Why?" +:+ Samples.em_space));
    reflexivity.
Defined.

Lemma gateway_chat_rejects_blank_question_witness :
  Gateway.chat Samples.backend_answers "12:00:00" Samples.session_d1
    (Gateway.JObj [("question", Gateway.JStr (Samples.em_space +:+ Samples.nbsp))])
  = {| Gateway.session_after := Samples.session_d1;
       Gateway.sent :=
         Gateway.Json 400
           (Gateway.error (Gateway.JStr "La question ne peut pas être vide"));
       Gateway.calls := [] |}.
Proof.
  apply (gateway_chat_rejects_blank_question Samples.backend_answers "12:00:00"
           Samples.session_d1
           [("question", Gateway.JStr (Samples.em_space +:+ Samples.nbsp))]
           (Gateway.JStr "d1")).
  - reflexivity.
  - right. exists (Samples.em_space +:+ Samples.nbsp). split; reflexivity.
Defined.

Lemma gateway_chat_always_replies_json_witness :
  Gateway.session_after
    (Gateway.chat Samples.backend_refuses "12:00:00" Samples.session_d1
       (Gateway.JObj [("question", Gateway.JStr "What is the summary?")]))
  = Samples.session_d1 /\
  exists st payload,
    Gateway.sent
      (Gateway.chat Samples.backend_refuses "12:00:00" Samples.session_d1
         (Gateway.JObj [("question", Gateway.JStr "What is the summary?")]))
    = Gateway.Json st payload /\
    (st = 200 \/ st = 400 \/ st = 408 \/ st = 500).
Proof.
  apply (gateway_chat_always_replies_json Samples.backend_refuses "12:00:00"
           Samples.session_d1 [("question", Gateway.JStr "What is the summary?")]).
  right. exists "What is the summary?". reflexivity.
Defined.

Lemma gateway_chat_unhandled_body_witness :
  Gateway.chat Samples.backend_answers "12:00:00" Samples.session_d1
    (Gateway.JArr [])
  = {| Gateway.session_after := Samples.session_d1;
       Gateway.sent := Gateway.Unhandled 500;
       Gateway.calls := [] |}.
Proof.
  apply (gateway_chat_unhandled_body Samples.backend_answers "12:00:00"
           Samples.session_d1 (Gateway.JArr []) (Gateway.JStr "d1")).
  - reflexivity.
  - left. intros fields. discriminate.
Defined.

Lemma gateway_chat_relays_detail_witness :
  Gateway.sent
    (Gateway.chat Samples.backend_rejects "12:00:00" Samples.session_d1
       (Gateway.JObj [("question", Gateway.JStr "What is the summary?")]))
  = Gateway.Json 500
      (Gateway.error
         (default (Gateway.JStr "Erreur lors de la génération")
            (Gateway.assoc "detail"
               [("detail", Gateway.JStr "question est requise")]))).
Proof.
  apply (gateway_chat_relays_detail Samples.backend_rejects "12:00:00"
           Samples.session_d1 [("question", Gateway.JStr "What is the summary?")]
           (Gateway.JStr "d1") "What is the summary?" 400).
  - reflexivity.
  - reflexivity.
  - reflexivity.
  - reflexivity.
  - discriminate.
Defined.

Lemma gateway_chat_relays_answer_witness :
  Gateway.sent
    (Gateway.chat Samples.backend_answers "12:00:00" Samples.session_d1
       (Gateway.JObj [("question", Gateway.JStr "What is the summary?")]))
  = match Gateway.assoc "answer" [("answer", Gateway.JStr "Three parts.")] with
    | Some a =>
        Gateway.Json 200
          (Gateway.JObj
             [("success", Gateway.JBool true);
              ("answer", a);
              ("sources",
               default (Gateway.JArr [])
                 (Gateway.assoc "sources" [("answer", Gateway.JStr "Three parts.")]));
              ("timestamp", Gateway.JStr "12:00:00")])
    | None => Gateway.Json 500 (Gateway.error (Gateway.JStr "Erreur: 'answer'"))
    end.
Proof.
  apply (gateway_chat_relays_answer Samples.backend_answers "12:00:00"
           Samples.session_d1 [("question", Gateway.JStr "What is the summary?")]
           (Gateway.JStr "d1") "What is the summary?"); reflexivity.
Defined.

Lemma config_loads_iff_required_set_witness :
  (exists cfg, Config.load Samples.int_1536 Samples.float_text Samples.env_complete
               = Ok cfg) /\
  (Some "k" = Samples.env_complete !! "AZURE_OPENAI_KEY" /\
   Some "https://example.openai.azure.com"
   = Samples.env_complete !! "AZURE_OPENAI_ENDPOINT" /\
   Some "gpt" = Samples.env_complete !! "AZURE_OPENAI_DEPLOYMENT" /\
   Some "p" = Samples.env_complete !! "PINECONE_API_KEY" /\
   1536 = 1536 /\
   "2024-02-01" = default "2024-02-01" (Samples.env_complete !! "AZURE_OPENAI_VERSION") /\
   "text-embedding-ada-002"
   = default "text-embedding-ada-002"
       (Samples.env_complete !! "AZURE_OPENAI_EMBEDDING_DEPLOYMENT") /\
   "azure-openai-rag-index"
   = default "azure-openai-rag-index" (Samples.env_complete !! "PINECONE_INDEX_NAME")).
Proof.
  destruct (config_loads_iff_required_set Samples.int_1536 Samples.float_text
              Samples.env_complete 1536 "0.2" eq_refl eq_refl) as [Hiff Hfields].
  split.
  - apply (proj1 Hiff). intros name Hname.
    repeat (apply elem_of_cons in Hname as [->|Hname];
            [eexists; split; [reflexivity | discriminate]|]).
    by apply elem_of_nil in Hname.
  - apply (Hfields
             {| Config.AZURE_OPENAI_KEY := Some "k";
                Config.AZURE_OPENAI_ENDPOINT := Some "https://example.openai.azure.com";
                Config.AZURE_OPENAI_DEPLOYMENT := Some "gpt";
                Config.AZURE_OPENAI_VERSION := "2024-02-01";
                Config.AZURE_OPENAI_EMBEDDING_DEPLOYMENT := "text-embedding-ada-002";
                Config.PINECONE_API_KEY := Some "p";
                Config.PINECONE_INDEX_NAME := "azure-openai-rag-index";
                Config.PINECONE_NAMESPACE := None;
                Config.PINECONE_DIMENSION := 1536;
                Config.OPENAI_TEMPERATURE := "0.2" |}).
    vm_compute. reflexivity.
Defined.

Lemma config_error_names_missing_witness :
  Config.load Samples.int_1536 Samples.float_text Samples.env_partial
  = Raise (Error ("Configuration manquante: "
                  +:+ join ", " (Config.missing_vars Samples.env_partial)
                  +:+ ". Veuillez vérifier votre fichier .env")) /\
  Config.missing_vars Samples.env_partial
  = List.filter (fun name => Config.falsy (Samples.env_partial !! name))
      Config.required_names /\
  (forall name, name ∈ Config.missing_vars Samples.env_partial <->
     name ∈ Config.required_names /\
     (Samples.env_partial !! name = None \/
      Samples.env_partial !! name = Some EmptyString)).
Proof.
  apply (config_error_names_missing Samples.int_1536 Samples.float_text
           Samples.env_partial 1536 "0.2").
  - reflexivity.
  - reflexivity.
  - vm_compute. discriminate.
Defined.

Lemma config_number_error_comes_first_witness :
  Config.load Samples.int_1536 Samples.float_02
    (<["PINECONE_DIMENSION" := "large"]> Samples.env_partial)
  = Raise (Error "invalid literal for int() with base 10: 'large'")
  /\ Config.load Samples.int_1536 Samples.float_02
       (<["OPENAI_TEMPERATURE" := "warm"]> Samples.env_partial)
     = Raise (Error "could not convert string to float: 'warm'").
Proof.
  split.
  - apply (proj1 (config_number_error_comes_first Samples.int_1536 Samples.float_02
                    (<["PINECONE_DIMENSION" := "large"]> Samples.env_partial)
                    (Error "invalid literal for int() with base 10: 'large'"))).
    reflexivity.
  - apply (proj2 (config_number_error_comes_first Samples.int_1536 Samples.float_02
                    (<["OPENAI_TEMPERATURE" := "warm"]> Samples.env_partial)
                    (Error "could not convert string to float: 'warm'"))
             1536).
    + reflexivity.
    + reflexivity.
Defined.

Example config_error_message :
  Config.load Samples.int_1536 Samples.float_text Samples.env_partial
  = Raise (Error ("Configuration manquante: AZURE_OPENAI_ENDPOINT, "
                  +:+ "AZURE_OPENAI_DEPLOYMENT, PINECONE_API_KEY. "
                  +:+ "Veuillez vérifier votre fichier .env")).
Proof. vm_compute. reflexivity. Qed.
